(** * Account filter bot: parse, aggregate, filter, export

    A shallow embedding of the data pipeline of [main.py]
    ([AccountParser], [StatsGenerator] and the pure methods of
    [NetflixAccountBot]) together with the properties of that pipeline.

    Conventions.
    - A Python [str] is a [string]; the character [c : ascii] stands for the
      code point with the same number, so the texts covered are those over
      the code points below 256.  The built-in string methods used by the
      program ([strip], [splitlines], [split], [lower], [replace], [join])
      are embedded in module [Py] with the behaviour CPython gives them on
      that range.
    - A [dict] used as a map is a [gmap]; the account dictionary, whose four
      keys are fixed, is a record.
    - Python integers are [Z]; [len], [range] and slices are embedded with
      their behaviour on every integer, negative ones included.
    - Calls that may raise return a [result]; [logger.error] calls are not
      modelled (they do not influence any returned value).
    - The reading of the clock, [datetime.now().strftime(...)], is the
      parameter [timestamp].
    - [send_export_files] returns the sequence of the calls of
      [context.bot.send_document] it makes, each with the arguments it
      passes; the calls themselves are taken to return normally.
    - The handlers [handle_document] and [button_handler] are embedded as
      functions from the sessions ([self.user_data], a [gmap] from user
      identifiers to sessions) to the sessions after the call and the list
      of what the call did.  A message is represented by its wording and the
      values put into it; its keyboard is left out, and so is
      [format_stats], which depends on the insertion order of the tables.
      The built-in [int] is a parameter of [button_handler]. *)

From Stdlib Require Strings.Byte.
From Stdlib Require Import Ascii String.
From stdpp Require Import base option list gmap strings pretty.

Local Open Scope string_scope.
Local Open Scope list_scope.
Local Open Scope nat_scope.

(** ** Exceptions *)

Inductive exn : Type :=
  | ValueError
  | UnboundLocalError.

Inductive result (A : Type) : Type :=
  | Ok (a : A)
  | Raise (e : exn).

Arguments Ok {A} a.
Arguments Raise {A} e.

#[global] Instance result_ret : MRet result := λ A a, Ok a.

#[global] Instance result_bind : MBind result := λ A B k r,
  match r with
  | Ok a => k a
  | Raise e => Raise e
  end.

Fixpoint foldM {A S : Type} (f : S → A → result S) (s : S) (l : list A) : result S :=
  match l with
  | [] => Ok s
  | x :: l' => s' ← f s x; foldM f s' l'
  end.

(** ** The string built-ins *)

Module Py.

Definition code (c : ascii) : N := N_of_ascii c.

(** [str.isspace] on one character. *)
Definition is_space (c : ascii) : bool :=
  let n := code c in
  ((9 <=? n) && (n <=? 13) || (28 <=? n) && (n <=? 32)
   || (n =? 133) || (n =? 160))%N.

(** The line boundaries recognised by [str.splitlines]. *)
Definition is_linebreak (c : ascii) : bool :=
  let n := code c in
  ((10 <=? n) && (n <=? 13) || (28 <=? n) && (n <=? 30) || (n =? 133))%N.

Definition lower_char (c : ascii) : ascii :=
  let n := code c in
  if ((65 <=? n) && (n <=? 90)
      || (192 <=? n) && (n <=? 222) && negb (n =? 215))%N
  then ascii_of_N (n + 32) else c.

(** [s.lower()] *)
Fixpoint lower (s : string) : string :=
  match s with
  | "" => ""
  | String c r => String (lower_char c) (lower r)
  end.

Fixpoint lstrip (s : string) : string :=
  match s with
  | "" => ""
  | String c r => if is_space c then lstrip r else s
  end.

Fixpoint rstrip (s : string) : string :=
  match s with
  | "" => ""
  | String c r =>
      match rstrip r with
      | "" => if is_space c then "" else String c ""
      | r' => String c r'
      end
  end.

(** [s.strip()] *)
Definition strip (s : string) : string := rstrip (lstrip s).

(** Prepend a character to the first piece of a split. *)
Definition cons_head (c : ascii) (pieces : list string) : list string :=
  match pieces with
  | [] => [String c ""]
  | h :: t => String c h :: t
  end.

(** [s.splitlines()] *)
Fixpoint splitlines (s : string) : list string :=
  match s with
  | "" => []
  | String c r =>
      if is_linebreak c then
        "" :: match r with
              | String c2 r2 =>
                  if bool_decide (c = "013"%char ∧ c2 = "010"%char)
                  then splitlines r2 else splitlines r
              | "" => splitlines r
              end
      else cons_head c (splitlines r)
  end.

(** [s.split(sep, maxsplit)] for a one-character separator;
    [maxsplit = None] is the call without a limit. *)
Fixpoint split (sep : ascii) (maxsplit : option nat) (s : string) : list string :=
  match s with
  | "" => [""]
  | String c r =>
      if bool_decide (c = sep) then
        match maxsplit with
        | Some 0 => [s]
        | Some (S n) => "" :: split sep (Some n) r
        | None => "" :: split sep None r
        end
      else cons_head c (split sep maxsplit r)
  end.

(** [c in s] *)
Fixpoint contains (c : ascii) (s : string) : bool :=
  match s with
  | "" => false
  | String d r => bool_decide (d = c) || contains c r
  end.

(** [s.replace(c, by)] for a one-character pattern. *)
Fixpoint replace (c : ascii) (by_ : string) (s : string) : string :=
  match s with
  | "" => ""
  | String d r =>
      if bool_decide (d = c) then by_ +:+ replace c by_ r
      else String d (replace c by_ r)
  end.

(** [sep.join(l)] *)
Fixpoint join (sep : string) (l : list string) : string :=
  match l with
  | [] => ""
  | [x] => x
  | x :: l' => x +:+ sep +:+ join sep l'
  end.

(** [d.get(k, dflt)] *)
Definition get (d : gmap string string) (k dflt : string) : string :=
  default dflt (d !! k).

End Py.

(** ** The account record *)

Record account : Type := Account {
  email : string;
  password : string;
  details : gmap string string;
  raw : string
}.

(** ** [class AccountParser] *)

Module AccountParser.

(** One turn of the loop over [detail_parts] in [_parse_line]. *)
Definition parse_detail (parsed_details : gmap string string) (detail : string)
  : result (gmap string string) :=
  if Py.contains "=" detail then
    match Py.split "=" (Some 1) detail with
    | [key; value] => Ok (<[Py.strip key := Py.strip value]> parsed_details)
    | _ => Raise ValueError
    end
  else Ok parsed_details.

Definition _parse_line (line : string) : result account :=
  let parts := Py.split "|" (Some 1) line in
  let credentials := Py.strip (default "" (head parts)) in
  match Py.split ":" (Some 1) credentials with
  | [email; password] =>
      parsed_details ←
        (match parts with
         | _ :: details_part :: _ =>
             foldM parse_detail ∅ (Py.split "|" None details_part)
         | _ => Ok ∅
         end);
      Ok {| email := Py.strip email;
            password := Py.strip password;
            details := parsed_details;
            raw := Py.strip line |}
  | _ => Raise ValueError
  end.

(** One turn of the loop over the lines in [parse_file]. *)
Definition parse_step (accounts : list account) (line : string) : list account :=
  if bool_decide (Py.strip line ≠ "") then
    match _parse_line line with
    | Ok account => accounts ++ [account]
    | Raise _ => accounts
    end
  else accounts.

Definition parse_file (content : string) : list account :=
  fold_left parse_step (Py.splitlines content) [].

End AccountParser.

(** ** [class StatsGenerator] *)

Module StatsGenerator.

(** The dictionary built by [generate_stats]: five [defaultdict(int)] tables
    and the total. *)
Record stats : Type := Stats {
  plans : gmap string nat;
  phone : gmap string nat;
  country : gmap string nat;
  hold : gmap string nat;
  payment : gmap string nat;
  total : nat
}.

(** [table[k] += 1] on a [defaultdict(int)]. *)
Definition incr (k : string) (table : gmap string nat) : gmap string nat :=
  <[k := default 0 (table !! k) + 1]> table.

(** The body of the loop over the accounts. *)
Definition count_account (st : stats) (acc : account) : stats :=
  let details := details acc in
  let plan := Py.get details "Plan" "Unknown" in
  let phone_verified := Py.get details "PhoneVerified" "Unknown" in
  let country' := Py.get details "Country" "Unknown" in
  let hold' := Py.get details "Hold" "false" in
  let payment' := Py.get details "PaymentMethod" "Unknown" in
  {| plans := incr plan (plans st);
     phone := incr phone_verified (phone st);
     country := incr country' (country st);
     hold := incr hold' (hold st);
     payment := incr payment' (payment st);
     total := total st |}.

Definition generate_stats (accounts : list account) : stats :=
  fold_left count_account accounts
    {| plans := ∅; phone := ∅; country := ∅; hold := ∅; payment := ∅;
       total := length accounts |}.

End StatsGenerator.

(** The sum of the counts of a frequency table. *)
Definition table_sum (table : gmap string nat) : nat :=
  map_fold (λ _ count acc, count + acc) 0 table.

(** ** Integers, ranges and slices *)

(** [len(l)] *)
Definition len {A : Type} (l : list A) : Z := Z.of_nat (length l).

(** [list(range(start, stop, step))]; a zero step raises. *)
Definition range (start stop step : Z) : result (list Z) :=
  if bool_decide (step = 0)%Z then Raise ValueError
  else
    let count :=
      if bool_decide (0 < step)%Z then
        if bool_decide (start < stop)%Z then (1 + (stop - 1 - start) `div` step)%Z
        else 0%Z
      else
        if bool_decide (stop < start)%Z then (1 + (start - 1 - stop) `div` (- step))%Z
        else 0%Z in
    Ok ((λ i : nat, (start + Z.of_nat i * step)%Z) <$> seq 0 (Z.to_nat count)).

(** A slice bound brought into [0 .. n]: negative bounds count from the end. *)
Definition clamp (n i : Z) : Z :=
  if bool_decide (i < 0)%Z then Z.max 0 (i + n) else Z.min i n.

(** [l[lo:hi]] *)
Definition slice {A : Type} (l : list A) (lo hi : Z) : list A :=
  let lo' := clamp (len l) lo in
  let hi' := clamp (len l) hi in
  take (Z.to_nat (hi' - lo')) (drop (Z.to_nat lo') l).

(** [s.encode('utf-8', errors='ignore')] on code points below 256. *)
Definition encode_char (c : ascii) : list Byte.byte :=
  let n := Py.code c in
  if (n <? 128)%N then [byte_of_ascii c]
  else [byte_of_ascii (ascii_of_N (192 + n `div` 64));
        byte_of_ascii (ascii_of_N (128 + n `mod` 64))].

Fixpoint encode (s : string) : list Byte.byte :=
  match s with
  | "" => []
  | String c r => encode_char c ++ encode r
  end.

(** ** Exceptions of the keyboards and handlers *)

(** What the keyboards and handlers can raise: the exceptions of [exn]
    and those of indexing a list out of range and of subscripting [None]. *)
Inductive raised : Type :=
  | Exn (e : exn)
  | IndexError
  | TypeError.

Inductive outcome (A : Type) : Type :=
  | Done (a : A)
  | Raised (e : raised).

Arguments Done {A} a.
Arguments Raised {A} e.

#[global] Instance outcome_ret : MRet outcome := λ A a, Done a.

#[global] Instance outcome_bind : MBind outcome := λ A B k r,
  match r with
  | Done a => k a
  | Raised e => Raised e
  end.

(** A call that returns a [result], made where an [outcome] is awaited. *)
Definition lift {A : Type} (r : result A) : outcome A :=
  match r with
  | Ok a => Done a
  | Raise e => Raised (Exn e)
  end.

Fixpoint foldO {A S : Type} (f : S → A → outcome S) (s : S) (l : list A) : outcome S :=
  match l with
  | [] => Done s
  | x :: l' => s' ← f s x; foldO f s' l'
  end.

(** [l[i]]: a negative index counts from the end. *)
Definition getitem {A : Type} (l : list A) (i : Z) : outcome A :=
  let j := if bool_decide (i < 0)%Z then (i + len l)%Z else i in
  if bool_decide (j < 0)%Z then Raised IndexError
  else match l !! Z.to_nat j with
       | Some x => Done x
       | None => Raised IndexError
       end.

(** [s.startswith(prefix)] *)
Definition startswith (prefix s : string) : bool := String.prefix prefix s.

(** ** [class BotKeyboards] *)

Module BotKeyboards.

Record InlineKeyboardButton : Type := Button {
  text : string;
  callback_data : string
}.

(** The button of an option: the option as text, and the callback data
    that names the filter and the option.  An [InlineKeyboardMarkup] is the
    list of its rows of buttons. *)
Definition option_button (filter_type option : string) : InlineKeyboardButton :=
  {| text := option;
     callback_data := "apply_" +:+ filter_type +:+ "_" +:+ option |}.

(** The body of the loop of [dynamic_filter_keyboard]: the row of the
    options of indices [i] and [i + 1]. *)
Definition keyboard_row (options : list string) (filter_type : string)
    (keyboard : list (list InlineKeyboardButton)) (i : Z)
  : outcome (list (list InlineKeyboardButton)) :=
  first ← getitem options i;
  let row := [option_button filter_type first] in
  row ← (if bool_decide (i + 1 < len options)%Z then
           second ← getitem options (i + 1);
           Done (row ++ [option_button filter_type second])
         else Done row);
  Done (keyboard ++ [row]).

(** [dynamic_filter_keyboard]; [back_text] is the text of the back button,
    which has characters outside the range covered. *)
Definition dynamic_filter_keyboard (back_text : string) (options : list string)
    (filter_type : string) : outcome (list (list InlineKeyboardButton)) :=
  offsets ← lift (range 0 (len options) 2);
  keyboard ← foldO (keyboard_row options filter_type) [] offsets;
  Done (keyboard ++ [[ {| text := back_text; callback_data := "filter_menu" |} ]]).

End BotKeyboards.

(** ** [class NetflixAccountBot] *)

Module NetflixAccountBot.

(** The test made on one account by [filter_accounts]: the chain of
    [if]/[elif] on [filter_type]. *)
Definition selects (filter_type value : string) (acc : account) : bool :=
  let details := details acc in
  if bool_decide (filter_type = "plan") then
    bool_decide (Py.lower (Py.get details "Plan" "") = Py.lower value)
  else if bool_decide (filter_type = "country") then
    bool_decide (Py.lower (Py.get details "Country" "") = Py.lower value)
  else if bool_decide (filter_type = "phone") then
    let phone_status := Py.lower (Py.get details "PhoneVerified" "Unknown") in
    bool_decide (value = "Verified") && bool_decide (phone_status = "true")
    || bool_decide (value = "Unverified")
       && bool_decide (phone_status ∈ ["false"; "null"; "unknown"])
  else if bool_decide (filter_type = "hold") then
    let hold_status := Py.lower (Py.get details "Hold" "false") in
    bool_decide (value = "On Hold") && bool_decide (hold_status = "true")
    || bool_decide (value = "Active") && bool_decide (hold_status = "false")
  else if bool_decide (filter_type = "payment") then
    bool_decide (Py.lower (Py.get details "PaymentMethod" "Unknown") = Py.lower value)
  else false.

(** One turn of the loop of [filter_accounts]. *)
Definition filter_step (filter_type value : string)
    (filtered : list account) (acc : account) : list account :=
  if selects filter_type value acc then filtered ++ [acc] else filtered.

Definition filter_accounts (accounts : list account) (filter_type value : string)
  : list account :=
  fold_left (filter_step filter_type value) accounts [].

Definition quote : string := String "034" "".

Definition header : string :=
  "Email,Password,Plan,Country,PhoneVerified,Hold,PaymentMethod".

(** The inner loop over the cells of a row. *)
Definition escape_step (escaped_row : list string) (cell : string) : list string :=
  let cell_str := Py.replace "034" (quote +:+ quote) cell in
  escaped_row ++ [quote +:+ cell_str +:+ quote].

(** The body of the loop over the accounts in the csv branch. *)
Definition csv_step (rows : list string) (acc : account) : list string :=
  let details := details acc in
  let row := [ email acc; password acc;
               Py.get details "Plan" "";
               Py.get details "Country" "";
               Py.get details "PhoneVerified" "";
               Py.get details "Hold" "";
               Py.get details "PaymentMethod" "" ] in
  let row := fold_left escape_step row [] in
  rows ++ [Py.join "," row].

(** [format_filtered_accounts]; [timestamp] is the formatted reading of the
    clock.  With a [format_type] other than text and csv no branch binds
    [content] and the [return] raises. *)
Definition format_filtered_accounts (timestamp : string)
    (accounts : list account) (format_type : string) : result (string * string) :=
  if bool_decide (format_type = "text") then
    let content := Py.join (String "010" "") (raw <$> accounts) in
    let filename := "netflix_accounts_" +:+ timestamp +:+ ".txt" in
    Ok (content, filename)
  else if bool_decide (format_type = "csv") then
    let rows := fold_left csv_step accounts [header] in
    let content := Py.join (String "010" "") rows in
    let filename := "netflix_accounts_" +:+ timestamp +:+ ".csv" in
    Ok (content, filename)
  else Raise UnboundLocalError.

(** A [BytesIO] with its [name] attribute. *)
Record file_obj : Type := FileObj {
  data : list Byte.byte;
  name : string
}.

(** One call of [context.bot.send_document]. *)
Record send_document : Type := SendDocument {
  chat_id : Z;
  document : file_obj;
  filename : string
}.

Definition extension (fmt : string) : string :=
  if bool_decide (fmt = "text") then ".txt" else ".csv".

(** The body of the loop over the chunk offsets in [send_export_files];
    [sent] is the sequence of calls made so far. *)
Definition send_chunk (timestamp : string) (chat : Z) (accounts : list account)
    (fmt : string) (batch_size : Z) (base_prefix : string)
    (sent : list send_document) (idx : Z) : result (list send_document) :=
  let chunk := slice accounts idx (idx + batch_size) in
  '(chunk_content, _) ← format_filtered_accounts timestamp chunk fmt;
  let part := (idx `div` batch_size + 1)%Z in
  let total_parts := ((len accounts + batch_size - 1) `div` batch_size)%Z in
  let part_filename :=
    base_prefix +:+ "_batch" +:+ pretty part +:+ extension fmt in
  let file_obj := {| data := encode chunk_content; name := part_filename |} in
  Ok (sent ++ [ {| chat_id := chat; document := file_obj;
                   filename := part_filename |} ]).

(** [send_export_files]: the result is the sequence of [send_document] calls
    made, in order. *)
Definition send_export_files (timestamp : string) (chat : Z)
    (accounts : list account) (fmt : string) (batch_size : Z) (label : string)
  : result (list send_document) :=
  let base_prefix :=
    if bool_decide (batch_size ≠ 0)%Z
    then label +:+ "_" +:+ pretty batch_size +:+ "x_" +:+ timestamp
    else label +:+ "_" +:+ timestamp in
  '(content, _) ← format_filtered_accounts timestamp accounts fmt;
  if bool_decide (batch_size = 0)%Z || bool_decide (len accounts ≤ batch_size)%Z then
    let filename := base_prefix +:+ extension fmt in
    let file_content := {| data := encode content; name := filename |} in
    Ok [ {| chat_id := chat; document := file_content; filename := filename |} ]
  else
    offsets ← range 0 (len accounts) batch_size;
    foldM (send_chunk timestamp chat accounts fmt batch_size base_prefix) [] offsets.

(** [_esc]: a backslash before every underscore. *)
Definition _esc (text : string) : string :=
  Py.replace "_" (String "092" "_") text.

(** The dictionary kept for a user.  The keys accounts and stats are set by
    an upload; filtered and filter_label are set together by a filter, and
    export_format by the choice of a format. *)
Record session : Type := Session {
  session_accounts : list account;
  session_stats : StatsGenerator.stats;
  session_filtered : option (list account);
  session_filter_label : option string;
  session_export_format : option string
}.

(** The messages of the bot, by their wording; the values put into the text
    are their arguments.  Keyboards are not part of the model. *)
Inductive message : Type :=
  | NoValidAccounts
  | StatsReport (st : StatsGenerator.stats)
  | UploadFirst
  | SelectFilterType
  | SelectOption (filter_type : string)
  | NoAccountsFound (filter_type value : string)
  | Found (n : nat) (filter_type value : string)
  | ApplyFilterFirst
  | ChooseFormat
  | ChooseBatch
  | SelectFormatFirst
  | ExportComplete
  | MainMenu
  | Help.

(** What a handler does besides changing the sessions. *)
Inductive event : Type :=
  | Answer
  | Reply (m : message)
  | Edit (m : message)
  | Document (call : send_document).

(** [handle_document], from the decoded content of the file on. *)
Definition handle_document (user_data : gmap Z session) (user_id : Z)
    (content : string) : gmap Z session * list event :=
  let accounts := AccountParser.parse_file content in
  match accounts with
  | [] => (user_data, [Reply NoValidAccounts])
  | _ :: _ =>
      let stats := StatsGenerator.generate_stats accounts in
      (<[user_id := {| session_accounts := accounts;
                      session_stats := stats;
                      session_filtered := None;
                      session_filter_label := None;
                      session_export_format := None |}]> user_data,
       [Reply (StatsReport stats)])
  end.

(** [user_session[...]]: subscripting [None] raises. *)
Definition subscript (user_session : option session) : outcome session :=
  match user_session with
  | Some s => Done s
  | None => Raised TypeError
  end.

(** [_, filter_type, *value = data.split("_")] followed by
    [value = "_".join(value)]. *)
Definition unpack_apply (data : string) : outcome (string * string) :=
  match Py.split "_" None data with
  | _ :: filter_type :: value => Done (filter_type, Py.join "_" value)
  | _ => Raised (Exn ValueError)
  end.

(** [button_handler].  [int_] is the built-in [int] on texts, [timestamp]
    the reading of the clock, [chat] the chat of the update.  The result is
    the sessions after the call and what the call did, in order; when the
    call raises, the sessions are those before the call. *)
Definition button_handler (int_ : string → result Z) (timestamp : string)
    (user_data : gmap Z session) (user_id chat : Z) (data : string)
  : outcome (gmap Z session * list event) :=
  let user_session := user_data !! user_id in
  if bool_decide (user_session = None :> option session)
     && negb (bool_decide (data ∈ ["help"; "main_menu"])) then
    Done (user_data, [Answer; Edit UploadFirst])
  else if bool_decide (data = "show_stats") then
    s ← subscript user_session;
    Done (user_data, [Answer; Edit (StatsReport (session_stats s))])
  else if bool_decide (data = "filter_menu") then
    Done (user_data, [Answer; Edit SelectFilterType])
  else if bool_decide (data = "filter_plan") then
    s ← subscript user_session;
    Done (user_data, [Answer; Edit (SelectOption "plan")])
  else if bool_decide (data = "filter_country") then
    s ← subscript user_session;
    Done (user_data, [Answer; Edit (SelectOption "country")])
  else if bool_decide (data = "filter_phone") then
    Done (user_data, [Answer; Edit (SelectOption "phone")])
  else if bool_decide (data = "filter_hold") then
    Done (user_data, [Answer; Edit (SelectOption "hold")])
  else if bool_decide (data = "filter_payment") then
    s ← subscript user_session;
    Done (user_data, [Answer; Edit (SelectOption "payment")])
  else if startswith "apply_" data then
    '(filter_type, value) ← unpack_apply data;
    s ← subscript user_session;
    let filtered_accounts := filter_accounts (session_accounts s) filter_type value in
    match filtered_accounts with
    | [] => Done (user_data, [Answer; Edit (NoAccountsFound filter_type value)])
    | _ :: _ =>
        let label :=
          Py.lower (Py.replace "/" "" (Py.replace " " ""
                      (filter_type +:+ "_" +:+ value))) in
        let s' := {| session_accounts := session_accounts s;
                     session_stats := session_stats s;
                     session_filtered := Some filtered_accounts;
                     session_filter_label := Some label;
                     session_export_format := session_export_format s |} in
        Done (<[user_id := s']> user_data,
              [Answer; Edit (Found (length filtered_accounts) filter_type value)])
    end
  else if bool_decide (data = "export_menu") then
    s ← subscript user_session;
    match session_filtered s with
    | None => Done (user_data, [Answer; Edit ApplyFilterFirst])
    | Some _ => Done (user_data, [Answer; Edit ChooseFormat])
    end
  else if startswith "format_" data then
    fmt ← getitem (Py.split "_" None data) 1;
    s ← subscript user_session;
    let s' := {| session_accounts := session_accounts s;
                 session_stats := session_stats s;
                 session_filtered := session_filtered s;
                 session_filter_label := session_filter_label s;
                 session_export_format := Some fmt |} in
    Done (<[user_id := s']> user_data, [Answer; Edit ChooseBatch])
  else if startswith "batch_" data then
    s ← subscript user_session;
    match session_filtered s, session_export_format s with
    | Some filtered, Some fmt =>
        size_token ← getitem (Py.split "_" None data) 1;
        batch_size ← (if bool_decide (size_token = "all") then Done 0%Z
                      else lift (int_ size_token));
        let label := default "filtered" (session_filter_label s) in
        sent ← lift (send_export_files timestamp chat filtered fmt batch_size label);
        Done (user_data, [Answer] ++ (Document <$> sent) ++ [Edit ExportComplete])
    | _, _ => Done (user_data, [Answer; Edit SelectFormatFirst])
    end
  else if bool_decide (data = "main_menu") then
    Done (user_data, [Answer; Edit MainMenu])
  else if bool_decide (data = "help") then
    Done (user_data, [Answer; Edit Help])
  else Done (user_data, [Answer]).

End NetflixAccountBot.

(** * Vocabulary of the properties *)

Import StatsGenerator NetflixAccountBot.

(** ** Frequency tables *)

(** The count of [v] in a table, 0 when [v] is not a key of it. *)
Definition count_in (table : gmap string nat) (v : string) : nat :=
  default 0 (table !! v).

(** The value under which [generate_stats] counts an account in the table of
    attribute [key]: the attribute when the key is present, [dflt] otherwise. *)
Definition counted_as (key dflt : string) (acc : account) (v : string) : Prop :=
  details acc !! key = Some v ∨ (details acc !! key = None ∧ v = dflt).

#[global] Instance counted_as_dec key dflt acc v : Decision (counted_as key dflt acc v).
Proof. unfold counted_as. apply _. Defined.

(** ** Filtered collections *)

#[global] Instance account_eq_dec : EqDecision account.
Proof. solve_decision. Defined.

(** The number of occurrences of [a] in [l]. *)
Definition occurrences (a : account) (l : list account) : nat :=
  length (filter (λ x, x = a) l).

(** The attribute read by the phone filter, in lower case. *)
Definition phone_status (acc : account) : string :=
  Py.lower (Py.get (details acc) "PhoneVerified" "Unknown").

(** The attribute read by the hold filter, in lower case. *)
Definition hold_status (acc : account) : string :=
  Py.lower (Py.get (details acc) "Hold" "false").

(** ** Lines and their records *)

(** The line feed. *)
Definition newline : string := String "010" "".

(** The text before the first occurrence of [c] (the whole text when [c]
    does not occur). *)
Fixpoint before (c : ascii) (s : string) : string :=
  match s with
  | "" => ""
  | String d r => if bool_decide (d = c) then "" else String d (before c r)
  end.

(** The text after the first occurrence of [c] (empty when [c] does not
    occur). *)
Fixpoint after (c : ascii) (s : string) : string :=
  match s with
  | "" => ""
  | String d r => if bool_decide (d = c) then r else after c r
  end.

(** The credential part of a line: the text before the first pipe, trimmed. *)
Definition credentials (line : string) : string := Py.strip (before "|" line).

(** The lines from which [parse_file] makes a record: not blank, and with a
    colon in the credential part. *)
Definition kept (line : string) : Prop :=
  Py.strip line ≠ "" ∧ Py.contains ":" (credentials line).

#[global] Instance kept_dec line : Decision (kept line).
Proof. unfold kept. apply _. Defined.

(** The attribute of one detail segment, added to the attributes read so
    far: segments without an equals sign add nothing. *)
Definition add_detail (attributes : gmap string string) (detail : string)
  : gmap string string :=
  if Py.contains "=" detail
  then <[Py.strip (before "=" detail) := Py.strip (after "=" detail)]> attributes
  else attributes.

(** The attributes of a line: those of the segments after the first pipe,
    a later segment overwriting an earlier one with the same key. *)
Definition attributes_of (line : string) : gmap string string :=
  if Py.contains "|" line
  then fold_left add_detail (Py.split "|" None (after "|" line)) ∅
  else ∅.

(** The record of a kept line. *)
Definition record_of (line : string) : account :=
  {| email := Py.strip (before ":" (credentials line));
     password := Py.strip (after ":" (credentials line));
     details := attributes_of line;
     raw := Py.strip line |}.

(** A text without line boundary. *)
Fixpoint one_line (s : string) : bool :=
  match s with
  | "" => true
  | String c r => negb (Py.is_linebreak c) && one_line r
  end.

Definition starts_with_space (s : string) : bool :=
  match s with
  | "" => false
  | String c _ => Py.is_space c
  end.

Fixpoint ends_with_space (s : string) : bool :=
  match s with
  | "" => false
  | String c "" => Py.is_space c
  | String _ r => ends_with_space r
  end.

(** The line identifier:secret|k=v. *)
Definition record_line (identifier secret k v : string) : string :=
  identifier +:+ ":" +:+ secret +:+ "|" +:+ k +:+ "=" +:+ v.

(** ** Rows and payloads *)

(** A text in which every double quote is written twice. *)
Fixpoint double_quotes (s : string) : string :=
  match s with
  | "" => ""
  | String c r =>
      if bool_decide (c = "034"%char) then String "034" (String "034" (double_quotes r))
      else String c (double_quotes r)
  end.

(** Reading a text with doubled double quotes back: each pair gives one. *)
Fixpoint single_quotes (s : string) : string :=
  match s with
  | "" => ""
  | String c r =>
      if bool_decide (c = "034"%char) then
        match r with
        | String _ r' => String c (single_quotes r')
        | "" => String c ""
        end
      else String c (single_quotes r)
  end.

(** The number of double quotes in a text. *)
Fixpoint quotes_in (s : string) : nat :=
  match s with
  | "" => 0
  | String c r => (if bool_decide (c = "034"%char) then 1 else 0) + quotes_in r
  end.

(** A cell of the csv export: the text between double quotes, its own double
    quotes doubled. *)
Definition csv_cell (cell : string) : string :=
  quote +:+ double_quotes cell +:+ quote.

(** The attribute [key] of a record as the csv export shows it: the empty
    string when the record has no such attribute. *)
Definition attribute (acc : account) (key : string) : string :=
  match details acc !! key with
  | Some v => v
  | None => ""
  end.

(** The row of a record: seven cells separated by commas. *)
Definition csv_row (acc : account) : string :=
  Py.join ","
    (csv_cell <$> [ email acc; password acc; attribute acc "Plan";
                    attribute acc "Country"; attribute acc "PhoneVerified";
                    attribute acc "Hold"; attribute acc "PaymentMethod" ]).

(** A text written with apostrophes where it has double quotes. *)
Definition with_quotes (s : string) : string := Py.replace "'" quote s.

(** The content of an export in the text or the csv format. *)
Definition export_text (fmt : string) (accounts : list account) : string :=
  if bool_decide (fmt = "text") then Py.join newline (raw <$> accounts)
  else Py.join newline (header :: (csv_row <$> accounts)).

(** ** Batches *)

(** The number of parts, the ceiling of [n / b]. *)
Definition parts (n b : Z) : nat := Z.to_nat ((n + b - 1) `div` b).

(** The part of index [i] (from 0) of a collection cut in runs of [b]. *)
Definition chunk (accounts : list account) (b : Z) (i : nat) : list account :=
  take (Z.to_nat b) (drop (i * Z.to_nat b) accounts).

(** The prefix of the names of the files of an export. *)
Definition base_prefix (label : string) (b : Z) (timestamp : string) : string :=
  if bool_decide (b = 0)%Z then label +:+ "_" +:+ timestamp
  else label +:+ "_" +:+ pretty b +:+ "x_" +:+ timestamp.

(** The name of the file of the part of index [i] (from 0): it carries the
    part number [i + 1]. *)
Definition part_name (label : string) (b : Z) (timestamp fmt : string) (i : nat)
  : string :=
  base_prefix label b timestamp +:+ "_batch" +:+ pretty (Z.of_nat i + 1)%Z
  +:+ extension fmt.

(** The call that sends [accounts], formatted, under the name [fname]. *)
Definition sent_file (chat : Z) (fmt fname : string) (accounts : list account)
  : send_document :=
  {| chat_id := chat;
     document := {| data := encode (export_text fmt accounts); name := fname |};
     filename := fname |}.

(** The calls made by a run, none when it raised. *)
Definition calls (r : result (list send_document)) : list send_document :=
  match r with
  | Ok l => l
  | Raise _ => []
  end.

(** ** Sample collections *)

(** The line whose Plan attribute parses to the empty string. *)
Definition empty_plan_line : string := "a@x.com:pw|Plan=".

(** A record with no attribute at all. *)
Definition bare_account : account :=
  {| email := "a@x.com"; password := "pw"; details := ∅; raw := "a@x.com:pw" |}.

(** The upload with one phone-verified account that is not on hold. *)
Definition verified_active : list account :=
  AccountParser.parse_file "a@x.com:pw|PhoneVerified=true|Hold=false".

(** The first three and the first five of a numbered series of accounts. *)
Definition numbered (n : nat) : list account :=
  (λ i : nat, {| email := pretty i; password := "pw"; details := ∅;
                 raw := pretty i +:+ ":pw" |}) <$> seq 0 n.

(** ** The five tables *)

(** The tables of [generate_stats], each with the attribute it counts and
    the fallback it uses. *)
Definition tables : list ((stats → gmap string nat) * string * string) :=
  [ (plans, "Plan", "Unknown"); (phone, "PhoneVerified", "Unknown");
    (country, "Country", "Unknown"); (hold, "Hold", "false");
    (payment, "PaymentMethod", "Unknown") ].

(** A table without a zero count. *)
Definition positive_table (table : gmap string nat) : Prop :=
  ∀ v n, table !! v = Some n → 0 < n.

(** ** Payload bytes *)

(** The byte strings of [l] with [sep] between two consecutive ones. *)
Fixpoint join_bytes (sep : list Byte.byte) (l : list (list Byte.byte))
  : list Byte.byte :=
  match l with
  | [] => []
  | [x] => x
  | x :: l' => x ++ sep ++ join_bytes sep l'
  end.

(** The payload of a call. *)
Definition payload (call : send_document) : list Byte.byte :=
  data (document call).

(** ** Attribute segments *)

(** The segment [seg] sets the attribute [key]: it has an equals sign and
    the text before the first one, trimmed, is [key]. *)
Definition writes (key seg : string) : Prop :=
  Py.contains "=" seg ∧ Py.strip (before "=" seg) = key.

(** Among [segments], the last one that sets [key] gives it the value [v]. *)
Definition last_write (key v : string) (segments : list string) : Prop :=
  ∃ earlier seg later,
    segments = earlier ++ seg :: later
    ∧ writes key seg
    ∧ Py.strip (after "=" seg) = v
    ∧ ∀ s, s ∈ later → ¬ writes key s.

(** ** Keyboards and callback data *)

(** The back button of the option keyboards. *)
Definition back_button (back_text : string) : BotKeyboards.InlineKeyboardButton :=
  {| BotKeyboards.text := back_text; BotKeyboards.callback_data := "filter_menu" |}.

(** A text escaped by [_esc] read back: a backslash before an underscore is
    dropped. *)
Fixpoint unesc (s : string) : string :=
  match s with
  | "" => ""
  | String c r =>
      match r with
      | String d r' =>
          if bool_decide (c = "092"%char ∧ d = "_"%char)
          then String d (unesc r') else String c (unesc r)
      | "" => String c ""
      end
  end.

(** ** Sessions *)


(** The label stored with the result of the filter [filter_type], [value]. *)
Definition label_of (filter_type value : string) : string :=
  Py.lower (Py.replace "/" "" (Py.replace " " "" (filter_type +:+ "_" +:+ value))).

(** The session made by an upload. *)
Definition fresh_session (accounts : list account) : session :=
  {| session_accounts := accounts;
     session_stats := generate_stats accounts;
     session_filtered := None;
     session_filter_label := None;
     session_export_format := None |}.

(** The session after a filter that selected [filtered]. *)
Definition with_filter (s : session) (filtered : list account) (label : string)
  : session :=
  {| session_accounts := session_accounts s;
     session_stats := session_stats s;
     session_filtered := Some filtered;
     session_filter_label := Some label;
     session_export_format := session_export_format s |}.

(** The session after the choice of the format [fmt]. *)
Definition with_format (s : session) (fmt : string) : session :=
  {| session_accounts := session_accounts s;
     session_stats := session_stats s;
     session_filtered := session_filtered s;
     session_filter_label := session_filter_label s;
     session_export_format := Some fmt |}.


(** What a user sends to the bot: a file, or the press of a button. *)
Inductive update : Type :=
  | Upload (user : Z) (content : string)
  | Press (user chat : Z) (timestamp data : string).

Definition update_user (upd : update) : Z :=
  match upd with
  | Upload user _ => user
  | Press user _ _ _ => user
  end.

(** The sessions after an update; a call that raises leaves them as they
    were. *)
Definition step (int_ : string → result Z) (user_data : gmap Z session)
    (upd : update) : gmap Z session :=
  match upd with
  | Upload user content => (handle_document user_data user content).1
  | Press user chat timestamp data =>
      match button_handler int_ timestamp user_data user chat data with
      | Done (user_data', _) => user_data'
      | Raised _ => user_data
      end
  end.

(** The sessions after a sequence of updates, from no session at all. *)
Definition run (int_ : string → result Z) (updates : list update)
  : gmap Z session :=
  fold_left (step int_) updates ∅.

(** ** Reading rows *)

(** The seven values shown in the csv row of a record. *)
Definition cells (acc : account) : list string :=
  [ email acc; password acc; attribute acc "Plan"; attribute acc "Country";
    attribute acc "PhoneVerified"; attribute acc "Hold";
    attribute acc "PaymentMethod" ].

(** A text that starts with a double quote. *)
Definition starts_with_quote (s : string) : bool :=
  match s with
  | String c _ => bool_decide (c = "034"%char)
  | "" => false
  end.

(** * Properties *)

(** ** Loops that append to a list *)

Section append_loops.
Context {A B : Type}.

(** A loop that appends the selected elements builds the filtered list. *)
Lemma fold_left_select (p : A → bool) (l init : list A) :
  fold_left (λ out x, if p x then out ++ [x] else out) l init
  = init ++ filter (λ x, p x) l.
Proof.
  revert init. induction l as [|x l IH]; intros init; simpl.
  - by rewrite app_nil_r.
  - rewrite IH. destruct (p x) eqn:Hp.
    + rewrite filter_cons_True by (by apply Is_true_true_2).
      by rewrite <- app_assoc.
    + rewrite filter_cons_False; [done|]. by apply Is_true_false_2.
Qed.

(** A loop that appends one image per element builds the mapped list. *)
Lemma fold_left_collect (f : A → B) (l : list A) (init : list B) :
  fold_left (λ out x, out ++ [f x]) l init = init ++ (f <$> l).
Proof.
  revert init. induction l as [|x l IH]; intros init; simpl.
  - by rewrite app_nil_r.
  - rewrite IH. by rewrite <- app_assoc.
Qed.

Lemma fold_left_collect_step (step : list B → A → list B) (f : A → B)
    (l : list A) (init : list B) :
  (∀ out x, step out x = out ++ [f x]) →
  fold_left step l init = init ++ (f <$> l).
Proof.
  intros Hstep. rewrite <- fold_left_collect. revert init.
  induction l as [|x l IH]; intros init; simpl; [done|].
  by rewrite Hstep, IH.
Qed.

End append_loops.

(** ** Frequency tables *)

Lemma table_sum_incr (k : string) (table : gmap string nat) :
  table_sum (incr k table) = S (table_sum table).
Proof.
  unfold table_sum, incr.
  destruct (table !! k) as [n|] eqn:Hk; simpl.
  - rewrite <- insert_delete_eq.
    rewrite map_fold_insert_L; [|intros; lia|apply lookup_delete_eq].
    rewrite (map_fold_delete_L _ _ k n table); [lia|intros; lia|done].
  - rewrite map_fold_insert_L; [lia|intros; lia|done].
Qed.

Lemma count_in_incr (k v : string) (table : gmap string nat) :
  count_in (incr k table) v
  = count_in table v + (if bool_decide (k = v) then 1 else 0).
Proof.
  unfold count_in, incr. case_bool_decide as Hkv.
  - subst. by rewrite lookup_insert_eq.
  - rewrite lookup_insert_ne by done. lia.
Qed.

Lemma get_counted_as (key dflt : string) (acc : account) (v : string) :
  Py.get (details acc) key dflt = v ↔ counted_as key dflt acc v.
Proof.
  unfold Py.get, counted_as. destruct (details acc !! key) as [w|]; simpl.
  - split; [intros ->; by left|]. by intros [[= ->]|[? _]].
  - split; [intros <-; by right|]. by intros [?|[_ ->]].
Qed.

(** The state of the five tables after the loop of [generate_stats] has run
    over [accounts] from the state [st]. *)
Lemma generate_stats_loop (accounts : list account) (st : stats) :
  let st' := fold_left count_account accounts st in
  total st' = total st
  ∧ (∀ proj key dflt,
       (proj, key, dflt) ∈
         [ (plans, "Plan", "Unknown"); (phone, "PhoneVerified", "Unknown");
           (country, "Country", "Unknown"); (hold, "Hold", "false");
           (payment, "PaymentMethod", "Unknown") ] →
       table_sum (proj st') = table_sum (proj st) + length accounts
       ∧ ∀ v, count_in (proj st') v
              = count_in (proj st) v
                + length (filter (λ a, counted_as key dflt a v) accounts)).
Proof.
  revert st. induction accounts as [|acc accounts IH]; intros st; simpl.
  - split; [done|]. intros. split; [lia|]. intros. simpl. lia.
  - destruct (IH (count_account st acc)) as [Ht Htab]. split; [by rewrite Ht|].
    intros proj key dflt Hin. destruct (Htab proj key dflt Hin) as [Hs Hc].
    assert (proj (count_account st acc)
            = incr (Py.get (details acc) key dflt) (proj st)) as Hstep.
    { rewrite !elem_of_cons in Hin.
      destruct Hin as [?|[?|[?|[?|[?|Hin]]]]]; simplify_eq; try done.
      by apply elem_of_nil in Hin. }
    split.
    + rewrite Hs, Hstep, table_sum_incr. lia.
    + intros v. rewrite Hc, Hstep, count_in_incr, filter_cons.
      case_bool_decide as Hv; destruct (decide (counted_as key dflt acc v)) as [Hd|Hd];
        simpl; try lia.
      * apply get_counted_as in Hv. done.
      * apply get_counted_as in Hd. done.
Qed.

Lemma table_sum_empty : table_sum ∅ = 0.
Proof. unfold table_sum. apply map_fold_empty. Qed.

(** C3: for every record collection, the total of [generate_stats] is the
    number of records, and in each of the five frequency tables (plans,
    phone, country, hold, payment) the counts add up to the number of
    records. *)
Theorem generate_stats_totals (accounts : list account) :
  total (generate_stats accounts) = length accounts
  ∧ table_sum (plans (generate_stats accounts)) = length accounts
  ∧ table_sum (phone (generate_stats accounts)) = length accounts
  ∧ table_sum (country (generate_stats accounts)) = length accounts
  ∧ table_sum (hold (generate_stats accounts)) = length accounts
  ∧ table_sum (payment (generate_stats accounts)) = length accounts.
Proof.
  unfold generate_stats.
  pose proof (generate_stats_loop accounts
    {| plans := ∅; phone := ∅; country := ∅; hold := ∅; payment := ∅;
       total := length accounts |}) as [Ht Htab].
  simpl in Ht, Htab. split; [exact Ht|].
  repeat split.
  - destruct (Htab plans "Plan" "Unknown") as [-> _]; [repeat constructor|].
    simpl. by rewrite table_sum_empty.
  - destruct (Htab phone "PhoneVerified" "Unknown") as [-> _]; [repeat constructor|].
    simpl. by rewrite table_sum_empty.
  - destruct (Htab country "Country" "Unknown") as [-> _]; [repeat constructor|].
    simpl. by rewrite table_sum_empty.
  - destruct (Htab hold "Hold" "false") as [-> _]; [repeat constructor|].
    simpl. by rewrite table_sum_empty.
  - destruct (Htab payment "PaymentMethod" "Unknown") as [-> _]; [repeat constructor|].
    simpl. by rewrite table_sum_empty.
Qed.

(** C5, refuted as stated: the record parsed from a line with an empty Plan
    attribute carries the key Plan with the empty string as value, and
    [generate_stats] counts it under the empty string; nothing is counted
    under Unknown in the plans table. *)
Lemma empty_plan_not_counted_as_unknown :
  (details <$> AccountParser.parse_file empty_plan_line) = [ {[ "Plan" := "" ]} ]
  ∧ plans (generate_stats (AccountParser.parse_file empty_plan_line)) !! "Unknown"
    = None
  ∧ plans (generate_stats (AccountParser.parse_file empty_plan_line)) !! ""
    = Some 1.
Proof. vm_compute. done. Qed.

(** C5, amended: in each of the five tables the count of a value [v] is the
    number of records whose attribute is present with value [v] (the empty
    string included), plus, when [v] is the fallback of the table (Unknown
    for plan, phone verification, country and payment method, false for
    hold), the number of records in which the attribute key is absent.  The
    fallback is used only for an absent key. *)
Theorem generate_stats_counts (accounts : list account) (v : string) :
  count_in (plans (generate_stats accounts)) v
  = length (filter (λ a, counted_as "Plan" "Unknown" a v) accounts)
  ∧ count_in (phone (generate_stats accounts)) v
    = length (filter (λ a, counted_as "PhoneVerified" "Unknown" a v) accounts)
  ∧ count_in (country (generate_stats accounts)) v
    = length (filter (λ a, counted_as "Country" "Unknown" a v) accounts)
  ∧ count_in (hold (generate_stats accounts)) v
    = length (filter (λ a, counted_as "Hold" "false" a v) accounts)
  ∧ count_in (payment (generate_stats accounts)) v
    = length (filter (λ a, counted_as "PaymentMethod" "Unknown" a v) accounts).
Proof.
  unfold generate_stats.
  pose proof (generate_stats_loop accounts
    {| plans := ∅; phone := ∅; country := ∅; hold := ∅; payment := ∅;
       total := length accounts |}) as [_ Htab].
  simpl in Htab.
  repeat split.
  - destruct (Htab plans "Plan" "Unknown") as [_ ->]; [repeat constructor|done].
  - destruct (Htab phone "PhoneVerified" "Unknown") as [_ ->]; [repeat constructor|done].
  - destruct (Htab country "Country" "Unknown") as [_ ->]; [repeat constructor|done].
  - destruct (Htab hold "Hold" "false") as [_ ->]; [repeat constructor|done].
  - destruct (Htab payment "PaymentMethod" "Unknown") as [_ ->]; [repeat constructor|done].
Qed.

(** ** The filter *)

(** The loop of [filter_accounts] computes the filter by [selects]. *)
Lemma filter_accounts_filter (accounts : list account) (filter_type value : string) :
  filter_accounts accounts filter_type value
  = filter (λ a, selects filter_type value a) accounts.
Proof. unfold filter_accounts, filter_step. by rewrite fold_left_select. Qed.

Lemma filter_never {A : Type} (P : A → Prop) `{!∀ x, Decision (P x)} (l : list A) :
  (∀ x, x ∈ l → ¬ P x) → filter P l = [].
Proof.
  induction l as [|x l IH]; intros Hno; [done|].
  rewrite filter_cons_False by (apply Hno; left).
  apply IH. intros y Hy. apply Hno. by right.
Qed.

(** C9: [filter_accounts] returns the records of its input that satisfy the
    test of the criterion, in their original relative order and each as many
    times as it occurs in the input: the result is the filter of the input by
    [selects], hence a subsequence of it.  The function only reads its input
    (the result is a list of its own). *)
Theorem filter_accounts_subsequence (accounts : list account) (filter_type value : string) :
  filter_accounts accounts filter_type value
  = filter (λ a, selects filter_type value a) accounts
  ∧ filter_accounts accounts filter_type value `sublist_of` accounts
  ∧ (∀ a, a ∈ filter_accounts accounts filter_type value
          ↔ a ∈ accounts ∧ selects filter_type value a)
  ∧ (∀ a, occurrences a (filter_accounts accounts filter_type value)
          = if selects filter_type value a then occurrences a accounts else 0).
Proof.
  rewrite filter_accounts_filter. split; [done|]. split; [|split].
  - apply sublist_filter.
  - intros a. rewrite list_elem_of_filter. tauto.
  - intros a. unfold occurrences. rewrite list_filter_filter.
    destruct (selects filter_type value a) eqn:Hs.
    + f_equal. apply list_filter_iff. intros x. split; [tauto|].
      intros ->. split; [done|]. by apply Is_true_true_2.
    + rewrite filter_never; [done|]. intros x _ [-> Hx].
      by apply Is_true_false_2 in Hs.
Qed.

(** C8: filtering twice by the same criterion and value gives what filtering
    once gives, for every [filter_type] (the five kinds and any other
    string) and every value. *)
Theorem filter_accounts_idempotent (accounts : list account) (filter_type value : string) :
  filter_accounts (filter_accounts accounts filter_type value) filter_type value
  = filter_accounts accounts filter_type value.
Proof.
  rewrite !filter_accounts_filter, list_filter_filter.
  apply list_filter_iff. tauto.
Qed.

Lemma lower_empty (s : string) : Py.lower s = "" ↔ s = "".
Proof. destruct s; simpl; split; congruence. Qed.

Lemma selects_payment (acc : account) (value : string) :
  selects "payment" value acc
  ↔ Py.lower (Py.get (details acc) "PaymentMethod" "Unknown") = Py.lower value.
Proof. unfold selects. simpl. apply bool_decide_spec. Qed.

Lemma selects_plan (acc : account) (value : string) :
  selects "plan" value acc
  ↔ Py.lower (Py.get (details acc) "Plan" "") = Py.lower value.
Proof. unfold selects. simpl. apply bool_decide_spec. Qed.

Lemma selects_country (acc : account) (value : string) :
  selects "country" value acc
  ↔ Py.lower (Py.get (details acc) "Country" "") = Py.lower value.
Proof. unfold selects. simpl. apply bool_decide_spec. Qed.

(** C10: the fallbacks of the filter for an absent attribute differ.  A
    record without PaymentMethod is selected by the payment filter exactly
    for the values that are Unknown in some letter case (their lower-case
    form is unknown); a record without Plan is selected by the plan filter
    only for the empty value, and a record without Country by the country
    filter only for the empty value, so not for Unknown. *)
Theorem filter_fallbacks_diverge (accounts : list account) (acc : account) (value : string) :
  (details acc !! "PaymentMethod" = None →
     (acc ∈ filter_accounts accounts "payment" value
      ↔ acc ∈ accounts ∧ Py.lower value = "unknown"))
  ∧ (details acc !! "Plan" = None →
     (acc ∈ filter_accounts accounts "plan" value
      ↔ acc ∈ accounts ∧ value = ""))
  ∧ (details acc !! "Country" = None →
     (acc ∈ filter_accounts accounts "country" value
      ↔ acc ∈ accounts ∧ value = "")).
Proof.
  rewrite !filter_accounts_filter, !list_elem_of_filter.
  rewrite selects_payment, selects_plan, selects_country.
  unfold Py.get. split; [|split]; intros Habs; rewrite Habs; simpl.
  - split; intros [? ?]; split; done.
  - rewrite <- (lower_empty value). split; intros [? ?]; split; done.
  - rewrite <- (lower_empty value). split; intros [? ?]; split; done.
Qed.

Lemma filter_fallbacks_diverge_witness :
  bare_account ∈ filter_accounts [bare_account] "payment" "UNKNOWN"
  ∧ bare_account ∈ filter_accounts [bare_account] "payment" "Unknown"
  ∧ ¬ (bare_account ∈ filter_accounts [bare_account] "plan" "Unknown")
  ∧ bare_account ∈ filter_accounts [bare_account] "plan" ""
  ∧ ¬ (bare_account ∈ filter_accounts [bare_account] "country" "Unknown")
  ∧ bare_account ∈ filter_accounts [bare_account] "country" "".
Proof.
  assert (bare_account ∈ [bare_account]) as Hin by left.
  destruct (filter_fallbacks_diverge [bare_account] bare_account "UNKNOWN")
    as (Hpay_upper & _ & _).
  destruct (filter_fallbacks_diverge [bare_account] bare_account "Unknown")
    as (Hpay & Hplan & Hcountry).
  destruct (filter_fallbacks_diverge [bare_account] bare_account "")
    as (_ & Hplan_empty & Hcountry_empty).
  repeat split.
  - apply (Hpay_upper eq_refl). split; [exact Hin|reflexivity].
  - apply (Hpay eq_refl). split; [exact Hin|reflexivity].
  - intros H. apply (Hplan eq_refl) in H. destruct H as [_ H]. discriminate H.
  - apply (Hplan_empty eq_refl). split; [exact Hin|reflexivity].
  - intros H. apply (Hcountry eq_refl) in H. destruct H as [_ H]. discriminate H.
  - apply (Hcountry_empty eq_refl). split; [exact Hin|reflexivity].
Defined.

Lemma selects_phone (acc : account) (value : string) :
  selects "phone" value acc
  ↔ (value = "Verified" ∧ phone_status acc = "true")
    ∨ (value = "Unverified" ∧ phone_status acc ∈ ["false"; "null"; "unknown"]).
Proof.
  unfold selects, phone_status. simpl.
  rewrite orb_True, !andb_True, !bool_decide_spec. done.
Qed.

Lemma selects_hold (acc : account) (value : string) :
  selects "hold" value acc
  ↔ (value = "On Hold" ∧ hold_status acc = "true")
    ∨ (value = "Active" ∧ hold_status acc = "false").
Proof.
  unfold selects, hold_status. simpl.
  rewrite orb_True, !andb_True, !bool_decide_spec. done.
Qed.

(** C4, refuted as stated: on a collection with one verified, active account
    the phone filter selects the account for the value Verified and nothing
    for the value verified, and the hold filter selects it for Active and
    nothing for active. *)
Lemma phone_hold_value_case_sensitive :
  filter_accounts verified_active "phone" "verified"
    ≠ filter_accounts verified_active "phone" "Verified"
  ∧ filter_accounts verified_active "hold" "active"
    ≠ filter_accounts verified_active "hold" "Active".
Proof. split; vm_compute; discriminate. Qed.

(** C4, amended: for the phone and hold kinds the attribute of the record is
    compared without regard to letter case, and the value supplied by the
    caller is compared exactly with the tokens Verified, Unverified, On Hold
    and Active.  With the token Verified the phone filter keeps the records
    whose lower-cased attribute is true, with Unverified those whose
    lower-cased attribute (Unknown when absent) is false, null or unknown;
    with On Hold the hold filter keeps those whose lower-cased attribute is
    true and with Active those for which it (false when absent) is false;
    any other value, such as verified or active, selects no record. *)
Theorem phone_hold_tokens_exact (accounts : list account) (value : string) :
  filter_accounts accounts "phone" "Verified"
  = filter (λ a, phone_status a = "true") accounts
  ∧ filter_accounts accounts "phone" "Unverified"
    = filter (λ a, phone_status a ∈ ["false"; "null"; "unknown"]) accounts
  ∧ filter_accounts accounts "hold" "On Hold"
    = filter (λ a, hold_status a = "true") accounts
  ∧ filter_accounts accounts "hold" "Active"
    = filter (λ a, hold_status a = "false") accounts
  ∧ (value ≠ "Verified" → value ≠ "Unverified" →
     filter_accounts accounts "phone" value = [])
  ∧ (value ≠ "On Hold" → value ≠ "Active" →
     filter_accounts accounts "hold" value = []).
Proof.
  rewrite !filter_accounts_filter.
  split; [|split; [|split; [|split; [|split]]]].
  - apply list_filter_iff. intros a. rewrite selects_phone.
    split; [intros [[_ ?]|[? _]]; done|by left].
  - apply list_filter_iff. intros a. rewrite selects_phone.
    split; [intros [[? _]|[_ ?]]; done|by right].
  - apply list_filter_iff. intros a. rewrite selects_hold.
    split; [intros [[_ ?]|[? _]]; done|by left].
  - apply list_filter_iff. intros a. rewrite selects_hold.
    split; [intros [[? _]|[_ ?]]; done|by right].
  - intros H1 H2. apply filter_never. intros a _. rewrite selects_phone.
    intros [[? _]|[? _]]; done.
  - intros H1 H2. apply filter_never. intros a _. rewrite selects_hold.
    intros [[? _]|[? _]]; done.
Qed.

Lemma phone_hold_tokens_exact_witness :
  filter_accounts verified_active "phone" "verified" = []
  ∧ filter_accounts verified_active "hold" "active" = [].
Proof.
  destruct (phone_hold_tokens_exact verified_active "verified")
    as (_ & _ & _ & _ & Hphone & _).
  destruct (phone_hold_tokens_exact verified_active "active")
    as (_ & _ & _ & _ & _ & Hhold).
  split.
  - apply Hphone; discriminate.
  - apply Hhold; discriminate.
Defined.

(** ** The csv export *)

Lemma replace_double_quotes (cell : string) :
  Py.replace "034" (quote +:+ quote) cell = double_quotes cell.
Proof.
  induction cell as [|c r IH]; simpl; [done|].
  rewrite IH. by case_bool_decide.
Qed.

Lemma csv_step_row (rows : list string) (acc : account) :
  csv_step rows acc = rows ++ [csv_row acc].
Proof.
  unfold csv_step, csv_row, escape_step, csv_cell. do 2 f_equal.
  rewrite fold_left_collect. simpl.
  by rewrite !replace_double_quotes.
Qed.

Lemma single_double_quotes (cell : string) :
  single_quotes (double_quotes cell) = cell.
Proof.
  induction cell as [|c r IH]; simpl; [done|].
  case_bool_decide as Hc; simpl.
  - subst c. by rewrite IH.
  - rewrite bool_decide_eq_false_2 by done. by rewrite IH.
Qed.

Lemma quotes_in_double_quotes (cell : string) :
  quotes_in (double_quotes cell) = 2 * quotes_in cell.
Proof.
  induction cell as [|c r IH]; simpl; [done|].
  case_bool_decide as Hc; simpl.
  - rewrite IH. lia.
  - rewrite bool_decide_eq_false_2 by done. rewrite IH. lia.
Qed.

Lemma format_csv (timestamp : string) (accounts : list account) :
  format_filtered_accounts timestamp accounts "csv"
  = Ok (Py.join newline (header :: (csv_row <$> accounts)),
        "netflix_accounts_" +:+ timestamp +:+ ".csv").
Proof.
  unfold format_filtered_accounts. simpl.
  by rewrite (fold_left_collect_step csv_step csv_row) by apply csv_step_row.
Qed.

(** C7: the csv export is the header line
    Email,Password,Plan,Country,PhoneVerified,Hold,PaymentMethod followed by
    one row per record in collection order, the lines joined by line feeds;
    a row is the seven cells (identifier, secret and the five attributes, an
    absent attribute giving the empty string) joined by commas, each cell
    between double quotes with its own double quotes doubled (so that
    reading pairs back as one returns the cell, and the cell body has twice
    the double quotes of the value).  The record with identifier x@y.com,
    secret p, double quote, w and attribute Plan=Pro gives the row of the
    scenario, written here with apostrophes for double quotes. *)
Theorem csv_export (timestamp : string) (accounts : list account) :
  format_filtered_accounts timestamp accounts "csv"
  = Ok (Py.join newline
          ("Email,Password,Plan,Country,PhoneVerified,Hold,PaymentMethod"
           :: (csv_row <$> accounts)),
        "netflix_accounts_" +:+ timestamp +:+ ".csv")
  ∧ (∀ cell, single_quotes (double_quotes cell) = cell
             ∧ quotes_in (double_quotes cell) = 2 * quotes_in cell)
  ∧ (∀ raw_line,
       format_filtered_accounts timestamp
         [ {| email := "x@y.com"; password := with_quotes "p'w";
              details := {[ "Plan" := "Pro" ]}; raw := raw_line |} ] "csv"
       = Ok ("Email,Password,Plan,Country,PhoneVerified,Hold,PaymentMethod"
             +:+ newline +:+ with_quotes "'x@y.com','p''w','Pro','','','',''",
             "netflix_accounts_" +:+ timestamp +:+ ".csv")).
Proof.
  split; [apply format_csv|]. split.
  - intros cell. split; [apply single_double_quotes|apply quotes_in_double_quotes].
  - intros raw_line. rewrite format_csv. do 2 f_equal.
Qed.

(** ** The parser *)

Lemma split_zero (c : ascii) (s : string) : Py.split c (Some 0) s = [s].
Proof.
  induction s as [|d r IH]; simpl; [done|].
  case_bool_decide; [done|]. by rewrite IH.
Qed.

Lemma split_once (c : ascii) (s : string) :
  Py.split c (Some 1) s
  = if Py.contains c s then [before c s; after c s] else [s].
Proof.
  induction s as [|d r IH]; simpl; [done|].
  case_bool_decide; simpl.
  - by rewrite split_zero.
  - rewrite IH. by destruct (Py.contains c r).
Qed.

Lemma before_no_occurrence (c : ascii) (s : string) :
  Py.contains c s = false → before c s = s.
Proof.
  induction s as [|d r IH]; simpl; [done|].
  case_bool_decide; simpl; [done|]. intros Hr. by rewrite IH.
Qed.

Lemma parse_detail_add (attributes : gmap string string) (detail : string) :
  AccountParser.parse_detail attributes detail = Ok (add_detail attributes detail).
Proof.
  unfold AccountParser.parse_detail, add_detail. rewrite split_once.
  by destruct (Py.contains "=" detail).
Qed.

Lemma foldM_parse_detail (segments : list string) (attributes : gmap string string) :
  foldM AccountParser.parse_detail attributes segments
  = Ok (fold_left add_detail segments attributes).
Proof.
  revert attributes. induction segments as [|d l IH]; intros attributes; simpl.
  - done.
  - rewrite parse_detail_add. simpl. apply IH.
Qed.

(** [_parse_line] returns the record of the line when the credential part
    has a colon, and raises otherwise. *)
Lemma parse_line_result (line : string) :
  AccountParser._parse_line line
  = if Py.contains ":" (credentials line) then Ok (record_of line)
    else Raise ValueError.
Proof.
  unfold AccountParser._parse_line, credentials, record_of, attributes_of, credentials.
  rewrite (split_once "|" line).
  assert (default "" (head (if Py.contains "|" line
                            then [before "|" line; after "|" line] else [line]))
          = before "|" line) as ->.
  { destruct (Py.contains "|" line) eqn:Hp; simpl; [done|].
    by rewrite before_no_occurrence. }
  rewrite (split_once ":").
  destruct (Py.contains ":" (Py.strip (before "|" line))); [|done].
  destruct (Py.contains "|" line); simpl; [|done].
  rewrite foldM_parse_detail. done.
Qed.

Lemma parse_step_kept (accounts : list account) (line : string) :
  AccountParser.parse_step accounts line
  = accounts ++ (if decide (kept line) then [record_of line] else []).
Proof.
  unfold AccountParser.parse_step. rewrite parse_line_result.
  destruct (decide (kept line)) as [[Hblank Hcolon]|Hdrop].
  - rewrite bool_decide_eq_true_2 by done.
    apply Is_true_true_1 in Hcolon. by rewrite Hcolon.
  - rewrite app_nil_r. case_bool_decide as Hblank; [|done].
    destruct (Py.contains ":" (credentials line)) eqn:Hcolon; [|done].
    destruct Hdrop. split; [done|]. by apply Is_true_true_2.
Qed.

Lemma parse_loop (lines : list string) (accounts : list account) :
  fold_left AccountParser.parse_step lines accounts
  = accounts ++ (record_of <$> filter kept lines).
Proof.
  revert accounts. induction lines as [|line lines IH]; intros accounts; simpl.
  - by rewrite app_nil_r.
  - rewrite IH, parse_step_kept, filter_cons.
    destruct (decide (kept line)); simpl.
    + by rewrite <- app_assoc.
    + by rewrite app_nil_r.
Qed.

(** C1, refuted as stated: a line with a colon and nothing before it gives a
    record with an empty identifier, and a line with nothing but blanks
    between the colon and the pipe gives a record with an empty secret;
    neither line is dropped. *)
Lemma empty_identifier_or_secret_kept :
  (email <$> AccountParser.parse_file ":pw") = [""]
  ∧ (password <$> AccountParser.parse_file "a@x.com: |Plan=Basic") = [""]
  ∧ length (AccountParser.parse_file (":" +:+ String "010" "b@x.com:pw2")) = 2.
Proof. vm_compute. done. Qed.

(** C1, amended: for every input text the records returned by [parse_file]
    are, in line order, the records of the lines that are not blank and whose
    credential part (the text before the first pipe, trimmed) contains a
    colon.  The identifier and the secret of a record are the trimmed texts
    before and after the first colon of the credential part (either may be
    empty), and its raw field is the trimmed line.  A line that is not blank
    and has no colon in its credential part is dropped, and parsing continues
    with the next line. *)
Theorem parse_file_records (content : string) :
  AccountParser.parse_file content
  = record_of <$> filter kept (Py.splitlines content)
  ∧ (∀ acc, acc ∈ AccountParser.parse_file content →
       ∃ line, line ∈ Py.splitlines content
               ∧ Py.strip line ≠ ""
               ∧ Py.contains ":" (Py.strip (before "|" line))
               ∧ email acc = Py.strip (before ":" (Py.strip (before "|" line)))
               ∧ password acc = Py.strip (after ":" (Py.strip (before "|" line)))
               ∧ raw acc = Py.strip line).
Proof.
  assert (AccountParser.parse_file content
          = record_of <$> filter kept (Py.splitlines content)) as Heq.
  { unfold AccountParser.parse_file. by rewrite parse_loop. }
  split; [exact Heq|].
  intros acc. rewrite Heq, list_elem_of_fmap.
  intros (line & -> & Hline). apply list_elem_of_filter in Hline as [[Hb Hc] Hin].
  exists line. by repeat split.
Qed.

(** ** The text export *)

Lemma splitlines_one_line (s : string) :
  one_line s → s ≠ "" → Py.splitlines s = [s].
Proof.
  induction s as [|c r IH]; [done|]. simpl.
  intros [Hc Hr]%andb_True _. apply negb_True, Is_true_false_1 in Hc. rewrite Hc.
  destruct r as [|d r']; [done|]. by rewrite IH.
Qed.

Lemma rstrip_trimmed (s : string) : ends_with_space s = false → Py.rstrip s = s.
Proof.
  induction s as [|c r IH]; [done|]. simpl.
  destruct r as [|d r'].
  - simpl. by intros ->.
  - intros Hr. rewrite IH by done. done.
Qed.

Lemma strip_trimmed (s : string) :
  starts_with_space s = false → ends_with_space s = false → Py.strip s = s.
Proof.
  intros Hs He. unfold Py.strip.
  assert (Py.lstrip s = s) as ->; [|by apply rstrip_trimmed].
  destruct s as [|c r]; [done|]. simpl in *. by rewrite Hs.
Qed.

Lemma contains_app (c : ascii) (s1 s2 : string) :
  Py.contains c (s1 +:+ s2) = Py.contains c s1 || Py.contains c s2.
Proof.
  induction s1 as [|d r IH]; simpl; [done|].
  rewrite IH. by rewrite orb_assoc.
Qed.

Lemma before_app (c : ascii) (s1 s2 : string) :
  Py.contains c s1 = false → before c (s1 +:+ s2) = s1 +:+ before c s2.
Proof.
  induction s1 as [|d r IH]; simpl; [done|].
  case_bool_decide; simpl; [done|]. intros Hr. by rewrite IH.
Qed.

Lemma contains_lstrip (c : ascii) (s : string) :
  Py.is_space c = false → Py.contains c s → Py.contains c (Py.lstrip s).
Proof.
  intros Hc. induction s as [|d r IH]; simpl; [done|].
  destruct (Py.is_space d) eqn:Hd; [|done].
  case_bool_decide as Hdc; simpl; [congruence|done].
Qed.

Lemma contains_rstrip (c : ascii) (s : string) :
  Py.is_space c = false → Py.contains c s → Py.contains c (Py.rstrip s).
Proof.
  intros Hc. induction s as [|d r IH]; simpl; [done|].
  case_bool_decide as Hdc; simpl.
  - subst d. intros _. destruct (Py.rstrip r); simpl.
    + rewrite Hc. simpl. by rewrite bool_decide_eq_true_2.
    + by rewrite bool_decide_eq_true_2.
  - intros Hr. specialize (IH Hr).
    destruct (Py.rstrip r) as [|e r'] eqn:Hrs; [done|].
    simpl. rewrite bool_decide_eq_false_2 by done. done.
Qed.

Lemma contains_strip (c : ascii) (s : string) :
  Py.is_space c = false → Py.contains c s → Py.contains c (Py.strip s).
Proof.
  intros Hc Hs. unfold Py.strip. by apply contains_rstrip, contains_lstrip.
Qed.

(** The text export of the records parsed from a single trimmed line that
    [parse_file] keeps is that line. *)
Lemma text_of_kept_line (timestamp line : string) :
  one_line line → starts_with_space line = false → ends_with_space line = false →
  Py.contains ":" (credentials line) →
  AccountParser.parse_file line = [record_of line]
  ∧ raw (record_of line) = line
  ∧ format_filtered_accounts timestamp (AccountParser.parse_file line) "text"
    = Ok (line, "netflix_accounts_" +:+ timestamp +:+ ".txt").
Proof.
  intros Hone Hs He Hcolon.
  assert (Py.strip line = line) as Hstrip by by apply strip_trimmed.
  assert (line ≠ "") as Hne.
  { intros ->. done. }
  assert (AccountParser.parse_file line = [record_of line]) as Hparse.
  { unfold AccountParser.parse_file. rewrite parse_loop, splitlines_one_line by done.
    rewrite filter_cons_True; [done|]. split; [by rewrite Hstrip|done]. }
  split; [done|]. split; [done|].
  rewrite Hparse. unfold format_filtered_accounts. simpl. by rewrite Hstrip.
Qed.

(** C2: for every line identifier:secret|k=v that is a single line (it has
    no line boundary), has no white space at either end and whose identifier
    has no pipe, [parse_file] returns one record, the raw field of that
    record is the line, and the text export of the parsed collection is the
    line itself, character for character. *)
Theorem text_round_trip (timestamp identifier secret k v : string) :
  Py.contains "|" identifier = false →
  one_line (record_line identifier secret k v) →
  starts_with_space (record_line identifier secret k v) = false →
  ends_with_space (record_line identifier secret k v) = false →
  ∃ acc,
    AccountParser.parse_file (record_line identifier secret k v) = [acc]
    ∧ raw acc = record_line identifier secret k v
    ∧ format_filtered_accounts timestamp
        (AccountParser.parse_file (record_line identifier secret k v)) "text"
      = Ok (record_line identifier secret k v,
            "netflix_accounts_" +:+ timestamp +:+ ".txt").
Proof.
  intros Hid Hone Hs He.
  exists (record_of (record_line identifier secret k v)).
  apply text_of_kept_line; try done.
  unfold credentials, record_line. rewrite before_app by done.
  apply contains_strip; [done|]. rewrite contains_app. simpl.
  by rewrite orb_true_r.
Qed.

Lemma text_round_trip_witness :
  ∃ acc,
    AccountParser.parse_file (record_line "a@x.com" "pw1" "Plan" "Premium") = [acc]
    ∧ raw acc = record_line "a@x.com" "pw1" "Plan" "Premium"
    ∧ format_filtered_accounts "20240101_000000"
        (AccountParser.parse_file (record_line "a@x.com" "pw1" "Plan" "Premium"))
        "text"
      = Ok (record_line "a@x.com" "pw1" "Plan" "Premium",
            "netflix_accounts_" +:+ "20240101_000000" +:+ ".txt").
Proof.
  apply (text_round_trip "20240101_000000" "a@x.com" "pw1" "Plan" "Premium").
  - reflexivity.
  - vm_compute. exact I.
  - reflexivity.
  - reflexivity.
Defined.

(** ** The batch export *)

Lemma format_valid (timestamp : string) (accounts : list account) (fmt : string) :
  fmt = "text" ∨ fmt = "csv" →
  format_filtered_accounts timestamp accounts fmt
  = Ok (export_text fmt accounts,
        "netflix_accounts_" +:+ timestamp +:+ extension fmt).
Proof.
  intros [-> | ->].
  - done.
  - by rewrite format_csv.
Qed.

Lemma foldM_collect {A B : Type} (step : list B → A → result (list B))
    (g : A → B) (l : list A) (init : list B) :
  (∀ out x, x ∈ l → step out x = Ok (out ++ [g x])) →
  foldM step init l = Ok (init ++ (g <$> l)).
Proof.
  revert init. induction l as [|x l IH]; intros init Hstep; simpl.
  - by rewrite app_nil_r.
  - rewrite Hstep by left. simpl. rewrite IH.
    + by rewrite <- app_assoc.
    + intros out y Hy. apply Hstep. by right.
Qed.

Lemma parts_bounds (n b : Z) :
  (0 < b)%Z → (0 < n)%Z →
  ((Z.of_nat (parts n b) - 1) * b < n ≤ Z.of_nat (parts n b) * b)%Z.
Proof.
  intros Hb Hn. unfold parts.
  pose proof (Z.div_mod (n + b - 1) b ltac:(lia)) as Hdm.
  pose proof (Z.mod_pos_bound (n + b - 1) b Hb) as Hr.
  assert (0 ≤ (n + b - 1) `div` b)%Z by (apply Z.div_pos; lia).
  rewrite Z2Nat.id by done. nia.
Qed.

Lemma range_offsets (n b : Z) :
  (0 < b)%Z → (0 < n)%Z →
  range 0 n b = Ok ((λ i : nat, (Z.of_nat i * b)%Z) <$> seq 0 (parts n b)).
Proof.
  intros Hb Hn. unfold range, parts.
  rewrite bool_decide_eq_false_2 by lia.
  rewrite !bool_decide_eq_true_2 by lia.
  replace (1 + (n - 1 - 0) `div` b)%Z with ((n + b - 1) `div` b)%Z.
  - done.
  - replace (n + b - 1)%Z with ((n - 1 - 0) + 1 * b)%Z by lia.
    rewrite Z.div_add by lia. lia.
Qed.

Lemma slice_chunk (accounts : list account) (b : Z) (i : nat) :
  (0 < b)%Z → (Z.of_nat i * b ≤ len accounts)%Z →
  slice accounts (Z.of_nat i * b) (Z.of_nat i * b + b) = chunk accounts b i.
Proof.
  intros Hb Hi. unfold slice, chunk, clamp, len in *.
  destruct (Z_of_nat_complete b) as [m ->]; [lia|].
  rewrite Nat2Z.id. rewrite <- Nat2Z.inj_mul in *.
  generalize dependent (i * m). intros p Hi.
  rewrite !bool_decide_eq_false_2 by lia.
  rewrite (Z.min_l (Z.of_nat p)) by lia. rewrite Nat2Z.id.
  destruct (decide (p + m ≤ length accounts)).
  - rewrite Z.min_l by lia. f_equal. lia.
  - rewrite Z.min_r by lia. rewrite !take_ge; [done|..]; rewrite length_drop; lia.
Qed.

Lemma chunk_length (accounts : list account) (b : Z) (i : nat) :
  length (chunk accounts b i)
  = Z.to_nat b `min` (length accounts - i * Z.to_nat b).
Proof. unfold chunk. by rewrite length_take, length_drop. Qed.

Lemma concat_runs {A : Type} (m k : nat) (l : list A) :
  length l ≤ k * m →
  concat ((λ i, take m (drop (i * m) l)) <$> seq 0 k) = l.
Proof.
  revert l. induction k as [|k IH]; intros l Hl.
  - destruct l; [done|simpl in Hl; lia].
  - simpl seq. rewrite fmap_cons, <- fmap_S_seq, <- list_fmap_compose. simpl concat.
    rewrite (list_fmap_ext _ (λ i, take m (drop (i * m) (drop m l)))).
    + rewrite IH by (rewrite length_drop; lia). apply take_drop.
    + intros _ i _. simpl. rewrite drop_drop. done.
Qed.

Lemma last_chunk_size (n b : Z) :
  (0 < b)%Z → (0 < n)%Z →
  (n - (Z.of_nat (parts n b) - 1) * b
   = if bool_decide (n `mod` b = 0)%Z then b else n `mod` b)%Z.
Proof.
  intros Hb Hn. pose proof (parts_bounds n b Hb Hn) as [Hlo Hhi].
  revert Hlo Hhi. generalize (Z.of_nat (parts n b)). intros k Hlo Hhi.
  case_bool_decide as Hm.
  - apply Z.mod_divide in Hm; [|lia]. destruct Hm as [q ->].
    assert (k - 1 < q)%Z by nia. assert (q ≤ k)%Z by nia.
    assert (q = k) as -> by lia. lia.
  - assert (n ≠ k * b)%Z as Hne.
    { intros ->. rewrite Z.mod_mul in Hm by lia. done. }
    apply (Z.mod_unique_pos n b (k - 1)); lia.
Qed.

Lemma send_chunk_call (timestamp : string) (chat : Z) (accounts : list account)
    (fmt : string) (b : Z) (prefix : string) (sent : list send_document) (idx : Z) :
  fmt = "text" ∨ fmt = "csv" →
  send_chunk timestamp chat accounts fmt b prefix sent idx
  = Ok (sent ++ [sent_file chat fmt
                   (prefix +:+ "_batch" +:+ pretty (idx `div` b + 1)%Z
                    +:+ extension fmt)
                   (slice accounts idx (idx + b))]).
Proof. intros Hfmt. unfold send_chunk. by rewrite format_valid. Qed.

Lemma send_prefix (label : string) (b : Z) (timestamp : string) :
  (if bool_decide (b ≠ 0)%Z
   then label +:+ "_" +:+ pretty b +:+ "x_" +:+ timestamp
   else label +:+ "_" +:+ timestamp)
  = base_prefix label b timestamp.
Proof. unfold base_prefix. repeat case_bool_decide; done. Qed.

(** C6, refuted as stated: exports of three and of five records in batches
    of two consist of two and of three parts, and the first call made is the
    same in both; a call does not carry the total number of parts. *)
Lemma total_parts_not_sent :
  calls (send_export_files "T" 1 (numbered 3) "text" 2 "all") !! 0
  = calls (send_export_files "T" 1 (numbered 5) "text" 2 "all") !! 0
  ∧ is_Some (calls (send_export_files "T" 1 (numbered 3) "text" 2 "all") !! 0)
  ∧ ((len (numbered 3) + 2 - 1) `div` 2 = 2)%Z
  ∧ ((len (numbered 5) + 2 - 1) `div` 2 = 3)%Z.
Proof. vm_compute. repeat split; eauto. Qed.

(** C6, amended: for a format among text and csv, a collection of [n]
    records and a batch size [b >= 0].  If [b = 0] or [n <= b] there is one
    call, with the whole collection formatted as one payload.  Otherwise
    there are ceil(n/b) calls, one per chunk, in order; the chunks are the
    consecutive runs of [b] records of the collection (their concatenation
    is the collection), all of size [b] but the last, whose size is
    [n mod b], or [b] when [b] divides [n]; each chunk is formatted on its
    own (a csv payload starts with the header) and the name of its file
    carries the part number counted from 1. *)
Theorem send_export_files_chunks (timestamp : string) (chat : Z)
    (accounts : list account) (fmt : string) (b : Z) (label : string) :
  fmt = "text" ∨ fmt = "csv" →
  (0 ≤ b)%Z →
  (b = 0%Z ∨ (len accounts ≤ b)%Z →
     send_export_files timestamp chat accounts fmt b label
     = Ok [sent_file chat fmt (base_prefix label b timestamp +:+ extension fmt)
             accounts])
  ∧ ((0 < b < len accounts)%Z →
     send_export_files timestamp chat accounts fmt b label
     = Ok ((λ i, sent_file chat fmt (part_name label b timestamp fmt i)
                   (chunk accounts b i))
           <$> seq 0 (parts (len accounts) b))
     ∧ ((Z.of_nat (parts (len accounts) b) - 1) * b < len accounts
        ≤ Z.of_nat (parts (len accounts) b) * b)%Z
     ∧ (∀ i, i < parts (len accounts) b →
          len (chunk accounts b i)
          = if bool_decide (i + 1 < parts (len accounts) b) then b
            else if bool_decide (len accounts `mod` b = 0)%Z then b
                 else (len accounts `mod` b)%Z)
     ∧ concat (chunk accounts b <$> seq 0 (parts (len accounts) b)) = accounts).
Proof.
  intros Hfmt Hb. split.
  - intros Hone. unfold send_export_files.
    rewrite format_valid, send_prefix by done. simpl.
    assert (bool_decide (b = 0%Z) || bool_decide (len accounts ≤ b)%Z = true) as ->.
    { destruct Hone as [-> | Hle]; [done|].
      rewrite (bool_decide_eq_true_2 _ Hle). apply orb_true_r. }
    done.
  - intros [Hpos Hlt].
    assert (0 < len accounts)%Z as Hn by lia.
    pose proof (parts_bounds _ _ Hpos Hn) as Hparts.
    split; [|split; [done|split]].
    + unfold send_export_files.
      rewrite format_valid, send_prefix by done. simpl.
      rewrite !bool_decide_eq_false_2 by lia. simpl.
      rewrite range_offsets by done. simpl.
      rewrite (foldM_collect _ (λ idx, sent_file chat fmt
                 (base_prefix label b timestamp +:+ "_batch"
                  +:+ pretty (idx `div` b + 1)%Z +:+ extension fmt)
                 (slice accounts idx (idx + b))))
        by (intros; by apply send_chunk_call).
      simpl. f_equal. rewrite <- list_fmap_compose.
      apply list_fmap_ext. intros j i [-> Hi]%lookup_seq. simpl.
      rewrite slice_chunk by nia. unfold part_name.
      by rewrite Z.div_mul by lia.
    + intros i Hi. unfold len at 1. rewrite chunk_length.
      case_bool_decide as Hlast.
      * rewrite Nat.min_l; [lia|]. unfold len in *. nia.
      * assert (i = parts (len accounts) b - 1) as -> by lia.
        rewrite <- last_chunk_size by done. unfold len in *. nia.
    + unfold chunk. apply concat_runs. unfold len in *. nia.
Qed.

Lemma send_export_files_chunks_witness :
  send_export_files "T" 1 (numbered 2) "csv" 0 "all"
  = Ok [sent_file 1 "csv" (base_prefix "all" 0 "T" +:+ extension "csv") (numbered 2)]
  ∧ send_export_files "T" 1 (numbered 5) "csv" 2 "all"
    = Ok ((λ i, sent_file 1 "csv" (part_name "all" 2 "T" "csv" i)
                  (chunk (numbered 5) 2 i))
          <$> seq 0 (parts (len (numbered 5)) 2)).
Proof.
  split.
  - apply (send_export_files_chunks "T" 1 (numbered 2) "csv" 0 "all").
    + by right.
    + reflexivity.
    + by left.
  - apply (send_export_files_chunks "T" 1 (numbered 5) "csv" 2 "all").
    + by right.
    + discriminate.
    + vm_compute. split; reflexivity.
Defined.

(** ** The scenarios of the specification *)

Example parse_scenario :
  email <$> AccountParser.parse_file
    ("a@x.com:pw1|Plan=Premium|Country=US" +:+ newline +:+ "bad-line"
     +:+ newline +:+ "b@x.com:pw2|Plan=Basic|Country=US")
  = ["a@x.com"; "b@x.com"].
Proof. vm_compute. reflexivity. Qed.

Example stats_scenario :
  map_to_list (plans (generate_stats (AccountParser.parse_file
    ("a@x.com:pw1|Plan=Premium|Country=US" +:+ newline +:+ "bad-line"
     +:+ newline +:+ "b@x.com:pw2|Plan=Basic|Country=US"))))
  ≡ₚ [("Premium", 1); ("Basic", 1)].
Proof. vm_compute. apply perm_swap. Qed.

Example filter_scenario :
  email <$> filter_accounts (AccountParser.parse_file
    ("a@x.com:pw1|Plan=Premium|Country=US" +:+ newline +:+ "bad-line"
     +:+ newline +:+ "b@x.com:pw2|Plan=Basic|Country=US")) "plan" "premium"
  = ["a@x.com"].
Proof. vm_compute. reflexivity. Qed.

Example batch_scenario :
  (filename <$> calls (send_export_files "T" 1 (numbered 250) "text" 100 "all"))
  = ["all_100x_T_batch1.txt"; "all_100x_T_batch2.txt"; "all_100x_T_batch3.txt"]
  ∧ ((λ i, length (chunk (numbered 250) 100 i)) <$> seq 0 (parts 250 100))
    = [100; 100; 50].
Proof. vm_compute. done. Qed.

(** * Further properties of the pipeline *)

(** ** The filter, continued *)

(** X1: A [filter_type] that is none of the five kinds selects nothing: the
    chain of tests has no final [else]. *)
Theorem filter_unknown_kind (accounts : list account) (filter_type value : string) :
  filter_type ∉ ["plan"; "country"; "phone"; "hold"; "payment"] →
  filter_accounts accounts filter_type value = [].
Proof.
  intros Hkind. rewrite filter_accounts_filter. apply filter_never.
  intros a _. unfold selects.
  rewrite !not_elem_of_cons in Hkind. destruct Hkind as (?&?&?&?&?&_).
  rewrite !bool_decide_eq_false_2 by done. simpl. tauto.
Qed.

Lemma filter_unknown_kind_witness :
  filter_accounts verified_active "email" "a@x.com" = [].
Proof.
  apply (filter_unknown_kind verified_active "email" "a@x.com").
  intros H. repeat (apply elem_of_cons in H as [H|H]; [discriminate H|]).
  by apply elem_of_nil in H.
Defined.

(** X2: For the plan, country and payment kinds the value counts without regard
    to letter case: two values with the same lower-case form select the same
    records. *)
Theorem filter_value_letter_case (accounts : list account)
    (filter_type v1 v2 : string) :
  filter_type ∈ ["plan"; "country"; "payment"] →
  Py.lower v1 = Py.lower v2 →
  filter_accounts accounts filter_type v1 = filter_accounts accounts filter_type v2.
Proof.
  intros Hkind Hlow. rewrite !filter_accounts_filter.
  apply list_filter_iff. intros a.
  repeat (apply elem_of_cons in Hkind as [->|Hkind]);
    [| | |by apply elem_of_nil in Hkind].
  - by rewrite !selects_plan, Hlow.
  - by rewrite !selects_country, Hlow.
  - by rewrite !selects_payment, Hlow.
Qed.

Lemma filter_value_letter_case_witness :
  filter_accounts verified_active "plan" "premium"
  = filter_accounts verified_active "plan" "PREMIUM".
Proof.
  apply (filter_value_letter_case verified_active "plan" "premium" "PREMIUM").
  - repeat constructor.
  - reflexivity.
Defined.

(** X3: Filters compose: filtering a concatenation filters its two parts, and
    two successive filters give the same collection in either order. *)
Theorem filter_accounts_compose (accounts more : list account)
    (type1 value1 type2 value2 : string) :
  filter_accounts (accounts ++ more) type1 value1
  = filter_accounts accounts type1 value1 ++ filter_accounts more type1 value1
  ∧ filter_accounts (filter_accounts accounts type1 value1) type2 value2
    = filter_accounts (filter_accounts accounts type2 value2) type1 value1.
Proof.
  rewrite !filter_accounts_filter. split.
  - apply filter_app.
  - rewrite !list_filter_filter. apply list_filter_iff. tauto.
Qed.

(** X4: The two phone buckets are disjoint, and so are the two hold buckets: no
    record is selected both as Verified and as Unverified, nor both as On
    Hold and as Active. *)
Theorem filter_buckets_disjoint (accounts : list account) (acc : account) :
  ¬ (acc ∈ filter_accounts accounts "phone" "Verified"
     ∧ acc ∈ filter_accounts accounts "phone" "Unverified")
  ∧ ¬ (acc ∈ filter_accounts accounts "hold" "On Hold"
       ∧ acc ∈ filter_accounts accounts "hold" "Active").
Proof.
  rewrite !filter_accounts_filter, !list_elem_of_filter.
  rewrite !selects_phone, !selects_hold. split.
  - intros [[[[_ Ht]|[? _]] _] [[[? _]|[_ Hu]] _]]; try done.
    rewrite Ht in Hu.
    repeat (apply elem_of_cons in Hu as [Hu|Hu]; [discriminate Hu|]).
    by apply elem_of_nil in Hu.
  - intros [[[[_ Ht]|[? _]] _] [[[? _]|[_ Hf]] _]]; try done.
    rewrite Ht in Hf. discriminate Hf.
Qed.

(** X5: A record without the PhoneVerified attribute counts as Unverified and
    a record without the Hold attribute counts as Active. *)
Theorem filter_absent_status (accounts : list account) (acc : account) :
  (details acc !! "PhoneVerified" = None →
     (acc ∈ filter_accounts accounts "phone" "Unverified" ↔ acc ∈ accounts)
     ∧ ¬ (acc ∈ filter_accounts accounts "phone" "Verified"))
  ∧ (details acc !! "Hold" = None →
     (acc ∈ filter_accounts accounts "hold" "Active" ↔ acc ∈ accounts)
     ∧ ¬ (acc ∈ filter_accounts accounts "hold" "On Hold")).
Proof.
  rewrite !filter_accounts_filter, !list_elem_of_filter.
  rewrite !selects_phone, !selects_hold.
  unfold phone_status, hold_status, Py.get.
  split; intros ->; simpl.
  - split.
    + split; [tauto|]. intros Hin. split; [|done]. right. split; [done|].
      repeat constructor.
    + intros [[[_ ?]|[? _]] _]; done.
  - split.
    + split; [tauto|]. intros Hin. split; [|done]. by right.
    + intros [[[_ ?]|[? _]] _]; done.
Qed.

Lemma filter_absent_status_witness :
  bare_account ∈ filter_accounts [bare_account] "phone" "Unverified"
  ∧ bare_account ∈ filter_accounts [bare_account] "hold" "Active".
Proof.
  destruct (filter_absent_status [bare_account] bare_account) as [Hphone Hhold].
  split.
  - apply (Hphone eq_refl). left.
  - apply (Hhold eq_refl). left.
Defined.

(** ** The tables, continued *)

Lemma incr_positive (k : string) (table : gmap string nat) :
  positive_table table → positive_table (incr k table).
Proof.
  intros Hpos v n. unfold incr.
  destruct (decide (k = v)) as [->|Hne].
  - rewrite lookup_insert_eq. intros [= <-]. lia.
  - rewrite lookup_insert_ne by done. apply Hpos.
Qed.

Lemma generate_stats_positive (accounts : list account) (st : stats) :
  (∀ proj key dflt, (proj, key, dflt) ∈ tables → positive_table (proj st)) →
  ∀ proj key dflt, (proj, key, dflt) ∈ tables →
    positive_table (proj (fold_left count_account accounts st)).
Proof.
  revert st. induction accounts as [|acc accounts IH]; intros st Hst; simpl.
  - done.
  - apply IH. intros proj key dflt Hin. specialize (Hst proj key dflt Hin).
    unfold tables in Hin. rewrite !elem_of_cons in Hin.
    destruct Hin as [?|[?|[?|[?|[?|Hin]]]]]; simplify_eq; simpl;
      try by apply incr_positive.
    by apply elem_of_nil in Hin.
Qed.

Lemma generate_stats_table (accounts : list account)
    (proj : stats → gmap string nat) (key dflt v : string) :
  (proj, key, dflt) ∈ tables →
  positive_table (proj (generate_stats accounts))
  ∧ count_in (proj (generate_stats accounts)) v
    = length (filter (λ a, counted_as key dflt a v) accounts).
Proof.
  intros Hin. unfold generate_stats.
  set (st := {| plans := ∅; phone := ∅; country := ∅; hold := ∅; payment := ∅;
                total := length accounts |}).
  assert (∀ proj' key' dflt', (proj', key', dflt') ∈ tables → proj' st = ∅) as Hst.
  { intros proj' key' dflt' Hin'. unfold tables in Hin'. rewrite !elem_of_cons in Hin'.
    destruct Hin' as [?|[?|[?|[?|[?|Hin']]]]]; simplify_eq; try done.
    by apply elem_of_nil in Hin'. }
  split.
  - apply (generate_stats_positive accounts st) with key dflt; [|done].
    intros proj' key' dflt' Hin' w n. by rewrite (Hst _ _ _ Hin'), lookup_empty.
  - destruct (generate_stats_loop accounts st) as [_ Htab].
    destruct (Htab proj key dflt Hin) as [_ ->].
    unfold count_in. by rewrite (Hst _ _ _ Hin), lookup_empty.
Qed.

(** X6: The keys of each table are the values observed: a value is a key of the
    table exactly when some record is counted under it, and the count stored
    is at least 1 (and at most the number of records); no table holds a zero
    count. *)
Theorem table_keys_observed (accounts : list account)
    (proj : stats → gmap string nat) (key dflt v : string) :
  (proj, key, dflt) ∈ tables →
  (is_Some (proj (generate_stats accounts) !! v)
   ↔ ∃ a, a ∈ accounts ∧ counted_as key dflt a v)
  ∧ (∀ n, proj (generate_stats accounts) !! v = Some n → 0 < n ≤ length accounts).
Proof.
  intros Hin. destruct (generate_stats_table accounts proj key dflt v Hin) as [Hpos Hcount].
  unfold count_in in Hcount. split.
  - split.
    + intros [n Hn]. rewrite Hn in Hcount. simpl in Hcount.
      apply Hpos in Hn.
      destruct (filter (λ a, counted_as key dflt a v) accounts) as [|a l] eqn:Hf;
        [simpl in Hcount; lia|].
      exists a. assert (a ∈ a :: l) as Ha by left.
      rewrite <- Hf in Ha. apply list_elem_of_filter in Ha. tauto.
    + intros (a & Ha & Hc).
      assert (a ∈ filter (λ a, counted_as key dflt a v) accounts) as Hf
        by by apply list_elem_of_filter.
      destruct (proj (generate_stats accounts) !! v) as [n|]; [by eexists|].
      simpl in Hcount.
      destruct (filter (λ a, counted_as key dflt a v) accounts);
        [by apply elem_of_nil in Hf|done].
  - intros n Hn. split; [by apply Hpos in Hn|].
    rewrite Hn in Hcount. simpl in Hcount. rewrite Hcount. apply length_filter.
Qed.

Lemma table_keys_observed_witness :
  (is_Some (plans (generate_stats verified_active) !! "Unknown")
   ↔ ∃ a, a ∈ verified_active ∧ counted_as "Plan" "Unknown" a "Unknown")
  ∧ (∀ n, plans (generate_stats verified_active) !! "Unknown" = Some n →
          0 < n ≤ length verified_active).
Proof.
  apply (table_keys_observed verified_active plans "Plan" "Unknown" "Unknown").
  repeat constructor.
Defined.

(** X7: The statistics of a concatenation are the sums of the statistics of its
    parts: the totals add up, and so does the count of every value in every
    table. *)
Theorem generate_stats_app (accounts more : list account)
    (proj : stats → gmap string nat) (key dflt v : string) :
  (proj, key, dflt) ∈ tables →
  total (generate_stats (accounts ++ more))
  = total (generate_stats accounts) + total (generate_stats more)
  ∧ count_in (proj (generate_stats (accounts ++ more))) v
    = count_in (proj (generate_stats accounts)) v
      + count_in (proj (generate_stats more)) v.
Proof.
  intros Hin. split.
  - unfold generate_stats.
    rewrite !(proj1 (generate_stats_loop _ _)). simpl. apply length_app.
  - rewrite !(proj2 (generate_stats_table _ proj key dflt v Hin)).
    by rewrite filter_app, length_app.
Qed.

Lemma generate_stats_app_witness :
  total (generate_stats (verified_active ++ [bare_account]))
  = total (generate_stats verified_active) + total (generate_stats [bare_account])
  ∧ count_in (hold (generate_stats (verified_active ++ [bare_account]))) "false"
    = count_in (hold (generate_stats verified_active)) "false"
      + count_in (hold (generate_stats [bare_account])) "false".
Proof.
  apply (generate_stats_app verified_active [bare_account] hold "Hold" "false" "false").
  repeat constructor.
Defined.

(** X8: The options of the payment menu are the keys of the payment table, and
    each of them, given to the payment filter, selects at least as many
    records as the table counts under it.  The same holds for the plan and
    country menus except for the option Unknown, which stands for the
    records without the attribute and which the filter does not match with
    them. *)
Theorem menu_option_selects (accounts : list account) (v : string) :
  count_in (payment (generate_stats accounts)) v
  ≤ length (filter_accounts accounts "payment" v)
  ∧ (v ≠ "Unknown" →
     count_in (plans (generate_stats accounts)) v
     ≤ length (filter_accounts accounts "plan" v)
     ∧ count_in (country (generate_stats accounts)) v
       ≤ length (filter_accounts accounts "country" v)).
Proof.
  assert (∀ (P Q : account → Prop) `{!∀ a, Decision (P a)} `{!∀ a, Decision (Q a)}
            (l : list account),
            (∀ a, P a → Q a) → length (filter P l) ≤ length (filter Q l)) as Hmono.
  { intros P Q ? ? l HPQ. induction l as [|a l IH]; [done|].
    rewrite !filter_cons. destruct (decide (P a)) as [HP|HP].
    - rewrite decide_True by by apply HPQ. simpl. lia.
    - destruct (decide (Q a)); simpl; lia. }
  rewrite !filter_accounts_filter. split; [|intros Hv; split].
  - rewrite (proj2 (generate_stats_table _ payment "PaymentMethod" "Unknown" v
                      ltac:(repeat constructor))).
    apply Hmono. intros a Hc. apply selects_payment.
    apply get_counted_as in Hc. by rewrite Hc.
  - rewrite (proj2 (generate_stats_table _ plans "Plan" "Unknown" v
                      ltac:(repeat constructor))).
    apply Hmono. intros a [Hc|[_ Hc]]; [|done]. apply selects_plan.
    unfold Py.get. by rewrite Hc.
  - rewrite (proj2 (generate_stats_table _ country "Country" "Unknown" v
                      ltac:(repeat constructor))).
    apply Hmono. intros a [Hc|[_ Hc]]; [|done]. apply selects_country.
    unfold Py.get. by rewrite Hc.
Qed.

Lemma menu_option_selects_witness :
  count_in (plans (generate_stats verified_active)) "Premium"
  ≤ length (filter_accounts verified_active "plan" "Premium").
Proof.
  destruct (menu_option_selects verified_active "Premium") as [_ H].
  apply H. discriminate.
Defined.

(** ** The export, continued *)

(** X9: A format that is neither text nor csv makes [format_filtered_accounts]
    raise, and [send_export_files] then raises before any document is sent,
    whatever the batch size. *)
Theorem unknown_format_raises (timestamp : string) (chat : Z)
    (accounts : list account) (fmt : string) (b : Z) (label : string) :
  fmt ≠ "text" → fmt ≠ "csv" →
  format_filtered_accounts timestamp accounts fmt = Raise UnboundLocalError
  ∧ send_export_files timestamp chat accounts fmt b label = Raise UnboundLocalError.
Proof.
  intros Htext Hcsv.
  assert (format_filtered_accounts timestamp accounts fmt = Raise UnboundLocalError)
    as Hformat.
  { unfold format_filtered_accounts. by rewrite !bool_decide_eq_false_2 by done. }
  split; [done|]. unfold send_export_files. by rewrite Hformat.
Qed.

Lemma unknown_format_raises_witness :
  format_filtered_accounts "T" (numbered 3) "json" = Raise UnboundLocalError
  ∧ send_export_files "T" 1 (numbered 3) "json" 2 "all" = Raise UnboundLocalError.
Proof.
  apply (unknown_format_raises "T" 1 (numbered 3) "json" 2 "all"); discriminate.
Defined.

(** X10: With a negative batch size [send_export_files] sends nothing and does
    not raise: the single-file test fails and the range of offsets is
    empty. *)
Theorem negative_batch_sends_nothing (timestamp : string) (chat : Z)
    (accounts : list account) (fmt : string) (b : Z) (label : string) :
  fmt = "text" ∨ fmt = "csv" →
  (b < 0)%Z →
  send_export_files timestamp chat accounts fmt b label = Ok [].
Proof.
  intros Hfmt Hb. unfold send_export_files.
  rewrite format_valid by done. simpl.
  assert (0 ≤ len accounts)%Z as Hn by (unfold len; lia).
  rewrite (bool_decide_eq_false_2 (b = 0%Z)) by lia.
  rewrite (bool_decide_eq_false_2 (len accounts ≤ b)%Z) by lia. simpl.
  unfold range. rewrite (bool_decide_eq_false_2 (b = 0%Z)) by lia.
  rewrite (bool_decide_eq_false_2 (0 < b)%Z) by lia.
  rewrite (bool_decide_eq_false_2 (len accounts < 0)%Z) by lia.
  done.
Qed.

Lemma negative_batch_sends_nothing_witness :
  send_export_files "T" 1 (numbered 5) "text" (-2) "all" = Ok [].
Proof.
  apply (negative_batch_sends_nothing "T" 1 (numbered 5) "text" (-2) "all").
  - by left.
  - reflexivity.
Defined.

(** The calls of a batched export, for a batch size smaller than the
    collection. *)
Lemma send_export_files_parts (timestamp : string) (chat : Z)
    (accounts : list account) (fmt : string) (b : Z) (label : string) :
  fmt = "text" ∨ fmt = "csv" →
  (0 < b < len accounts)%Z →
  send_export_files timestamp chat accounts fmt b label
  = Ok ((λ i, sent_file chat fmt (part_name label b timestamp fmt i)
                (chunk accounts b i))
        <$> seq 0 (parts (len accounts) b)).
Proof.
  intros Hfmt [Hpos Hlt].
  assert (0 < len accounts)%Z as Hn by lia.
  pose proof (parts_bounds _ _ Hpos Hn) as Hparts.
  unfold send_export_files.
  rewrite format_valid, send_prefix by done. simpl.
  rewrite !bool_decide_eq_false_2 by lia. simpl.
  rewrite range_offsets by done. simpl.
  rewrite (foldM_collect _ (λ idx, sent_file chat fmt
             (base_prefix label b timestamp +:+ "_batch"
              +:+ pretty (idx `div` b + 1)%Z +:+ extension fmt)
             (slice accounts idx (idx + b))))
    by (intros; by apply send_chunk_call).
  simpl. f_equal. rewrite <- list_fmap_compose.
  apply list_fmap_ext. intros j i [-> Hi]%lookup_seq. simpl.
  rewrite slice_chunk by nia. unfold part_name.
  by rewrite Z.div_mul by lia.
Qed.

Lemma string_app_assoc (s1 s2 s3 : string) :
  (s1 +:+ s2) +:+ s3 = s1 +:+ s2 +:+ s3.
Proof.
  induction s1 as [|c r IH]; [done|].
  change (String c ((r +:+ s2) +:+ s3) = String c (r +:+ s2 +:+ s3)).
  by rewrite IH.
Qed.

Lemma encode_app (s1 s2 : string) : encode (s1 +:+ s2) = encode s1 ++ encode s2.
Proof.
  induction s1 as [|c r IH]; simpl; [done|]. by rewrite IH, app_assoc.
Qed.

Lemma join_app (sep : string) (l1 l2 : list string) :
  l1 ≠ [] → l2 ≠ [] →
  Py.join sep (l1 ++ l2) = Py.join sep l1 +:+ sep +:+ Py.join sep l2.
Proof.
  intros H1 H2. induction l1 as [|x l1 IH]; [done|].
  destruct l1 as [|y l1].
  - simpl. by destruct l2.
  - change ((x :: y :: l1) ++ l2) with (x :: (y :: l1) ++ l2).
    change (Py.join sep (x :: (y :: l1) ++ l2))
      with (x +:+ sep +:+ Py.join sep ((y :: l1) ++ l2)).
    rewrite IH by done.
    change (Py.join sep (x :: y :: l1)) with (x +:+ sep +:+ Py.join sep (y :: l1)).
    by rewrite !string_app_assoc.
Qed.

Lemma encode_join (sep : string) (l : list string) :
  encode (Py.join sep l) = join_bytes (encode sep) (encode <$> l).
Proof.
  induction l as [|x l IH]; [done|].
  destruct l as [|y l]; [done|].
  change (Py.join sep (x :: y :: l)) with (x +:+ sep +:+ Py.join sep (y :: l)).
  rewrite !encode_app, IH. done.
Qed.

Lemma fmap_concat_runs {A B : Type} (f : A → B) (runs : list (list A)) :
  f <$> concat runs = concat ((λ run : list A, f <$> run) <$> runs).
Proof.
  induction runs as [|run runs IH]; simpl; [done|]. by rewrite fmap_app, IH.
Qed.

Lemma join_runs (sep : string) (runs : list (list string)) :
  (∀ run, run ∈ runs → run ≠ []) →
  Py.join sep (concat runs) = Py.join sep (Py.join sep <$> runs).
Proof.
  induction runs as [|run runs IH]; intros Hne; [done|].
  destruct runs as [|run' runs].
  - simpl. by rewrite app_nil_r.
  - change (concat (run :: run' :: runs)) with (run ++ concat (run' :: runs)).
    assert (run ≠ []) by (apply Hne; left).
    assert (run' ≠ []) as Hrun' by (apply Hne; right; left).
    rewrite join_app; [| done |by destruct run'].
    rewrite IH by (intros r Hr; apply Hne; by right).
    done.
Qed.

(** X11: Batching a text export loses nothing: the payloads of the parts, put
    together with a line feed between two consecutive parts, are the payload
    of the export of the whole collection in one file. *)
Theorem text_batches_join (timestamp : string) (chat : Z)
    (accounts : list account) (b : Z) (label : string) :
  (0 < b < len accounts)%Z →
  ∃ whole sent,
    send_export_files timestamp chat accounts "text" 0 label = Ok [whole]
    ∧ send_export_files timestamp chat accounts "text" b label = Ok sent
    ∧ payload whole = join_bytes [Byte.x0a] (payload <$> sent).
Proof.
  intros Hb.
  assert (0 < len accounts)%Z as Hn by lia.
  pose proof (parts_bounds _ _ (proj1 Hb) Hn) as Hparts.
  eexists _, _. split; [|split].
  - unfold send_export_files. rewrite format_valid by by left. done.
  - by apply send_export_files_parts; [left|].
  - unfold payload. simpl. rewrite <- list_fmap_compose.
    unfold export_text. simpl.
    trans (encode (Py.join newline
             ((λ i, Py.join newline (raw <$> chunk accounts b i))
              <$> seq 0 (parts (len accounts) b)))).
    + f_equal.
      rewrite <- (concat_runs (Z.to_nat b) (parts (len accounts) b) accounts) at 1
        by (unfold len in *; nia).
      rewrite fmap_concat_runs, join_runs.
      * by rewrite <- !list_fmap_compose.
      * intros run. rewrite <- list_fmap_compose.
        intros (i & -> & Hin)%list_elem_of_fmap.
        apply list_elem_of_lookup_1 in Hin as (j & [-> Hi]%lookup_seq).
        simpl. intros Hnil%fmap_nil_inv.
        assert (length (take (Z.to_nat b) (drop (j * Z.to_nat b) accounts)) = 0)
          as Hlen by by rewrite Hnil.
        rewrite length_take, length_drop in Hlen. unfold len in *. nia.
    + rewrite encode_join, <- list_fmap_compose. done.
Qed.

Lemma text_batches_join_witness :
  ∃ whole sent,
    send_export_files "T" 1 (numbered 5) "text" 0 "all" = Ok [whole]
    ∧ send_export_files "T" 1 (numbered 5) "text" 2 "all" = Ok sent
    ∧ payload whole = join_bytes [Byte.x0a] (payload <$> sent).
Proof.
  apply (text_batches_join "T" 1 (numbered 5) 2 "all").
  vm_compute. split; reflexivity.
Defined.

(** ** The parser, continued *)

Lemma add_detail_lookup (attributes : gmap string string) (seg key : string) :
  add_detail attributes seg !! key
  = if decide (writes key seg) then Some (Py.strip (after "=" seg))
    else attributes !! key.
Proof.
  unfold add_detail, writes.
  destruct (Py.contains "=" seg) eqn:Heq.
  - destruct (decide (Py.strip (before "=" seg) = key)) as [<-|Hne].
    + rewrite decide_True by done. apply lookup_insert_eq.
    + rewrite decide_False by tauto. by apply lookup_insert_ne.
  - rewrite decide_False; [done|]. intros [H _]. done.
Qed.

Lemma fold_add_detail_lookup (segments : list string)
    (attributes : gmap string string) (key v : string) :
  fold_left add_detail segments attributes !! key = Some v
  ↔ last_write key v segments
    ∨ (attributes !! key = Some v ∧ ∀ s, s ∈ segments → ¬ writes key s).
Proof.
  revert attributes. induction segments as [|seg segments IH]; intros attributes; simpl.
  - split.
    + intros H. right. split; [done|]. intros s Hs. by apply elem_of_nil in Hs.
    + intros [(earlier & s & later & Hsplit & _)|[H _]]; [|done].
      by destruct earlier.
  - rewrite IH, add_detail_lookup. split.
    + intros [(earlier & s & later & -> & Hw & Hv & Hlater)|[Hseg Hnone]].
      * left. exists (seg :: earlier), s, later. done.
      * destruct (decide (writes key seg)) as [Hw|Hw].
        -- left. exists [], seg, segments.
           split; [done|split; [done|split; [congruence|done]]].
        -- right. split; [done|]. intros s [->|Hs]%elem_of_cons; [done|by apply Hnone].
    + intros [(earlier & s & later & Hsplit & Hw & Hv & Hlater)|[Hinit Hnone]].
      * destruct earlier as [|e earlier]; simpl in Hsplit; simplify_eq.
        -- right. rewrite decide_True by done. split; [done|exact Hlater].
        -- left. exists earlier, s, later. done.
      * right. rewrite decide_False by (apply Hnone; left).
        split; [done|]. intros s Hs. apply Hnone. by right.
Qed.

(** X12: The attributes of a parsed line: the key [key] has the value [v] exactly
    when the line has a pipe and, among the segments after the first pipe,
    the last one that sets [key] (it has an equals sign and the trimmed text
    before the first one is [key]) has [v] as the trimmed text after its
    first equals sign.  Later segments overwrite earlier ones, and segments
    without an equals sign are ignored. *)
Theorem attribute_last_write (line : string) (acc : account) (key v : string) :
  AccountParser._parse_line line = Ok acc →
  (details acc !! key = Some v
   ↔ Py.contains "|" line
     ∧ last_write key v (Py.split "|" None (after "|" line))).
Proof.
  rewrite parse_line_result.
  destruct (Py.contains ":" (credentials line)); [|done].
  intros [= <-]. simpl. unfold attributes_of.
  destruct (Py.contains "|" line).
  - rewrite fold_add_detail_lookup. split.
    + intros [H|[H _]]; [done|]. by rewrite lookup_empty in H.
    + intros [_ H]. by left.
  - rewrite lookup_empty. split; [done|]. intros [[] _].
Qed.

Lemma attribute_last_write_witness :
  ∃ acc,
    AccountParser._parse_line "a@x.com:pw|Plan=Basic|x|Plan = Premium " = Ok acc
    ∧ details acc !! "Plan" = Some "Premium".
Proof.
  exists (record_of "a@x.com:pw|Plan=Basic|x|Plan = Premium ").
  assert (AccountParser._parse_line "a@x.com:pw|Plan=Basic|x|Plan = Premium "
          = Ok (record_of "a@x.com:pw|Plan=Basic|x|Plan = Premium ")) as Hacc
    by (vm_compute; reflexivity).
  split; [exact Hacc|].
  apply (attribute_last_write "a@x.com:pw|Plan=Basic|x|Plan = Premium " _
           "Plan" "Premium" Hacc).
  split; [done|].
  exists ["Plan=Basic"; "x"], "Plan = Premium ", [].
  split; [reflexivity|split; [split; [done|reflexivity]|split; [reflexivity|]]].
  intros s Hs. by apply elem_of_nil in Hs.
Defined.

Lemma splitlines_nonempty (c : ascii) (s : string) : Py.splitlines (String c s) ≠ [].
Proof.
  simpl. destruct (Py.is_linebreak c); [done|].
  by destruct (Py.splitlines s).
Qed.

Lemma cons_head_app (c : ascii) (l1 l2 : list string) :
  l1 ≠ [] → Py.cons_head c (l1 ++ l2) = Py.cons_head c l1 ++ l2.
Proof. by destruct l1. Qed.

(** The lines of two texts put one after the other with a line feed between
    them: the lines of the first, then the lines of the second, with an
    empty line between them when the first text ends a line itself. *)
Lemma splitlines_newline (a b : string) :
  Py.splitlines (a +:+ newline +:+ b) = Py.splitlines a ++ Py.splitlines b
  ∨ Py.splitlines (a +:+ newline +:+ b) = Py.splitlines a ++ "" :: Py.splitlines b.
Proof.
  assert (Py.splitlines (newline +:+ b) = "" :: Py.splitlines b) as Hnl.
  { simpl. by destruct b. }
  cut ((Py.splitlines (a +:+ newline +:+ b) = Py.splitlines a ++ Py.splitlines b
        ∨ Py.splitlines (a +:+ newline +:+ b) = Py.splitlines a ++ "" :: Py.splitlines b)
       ∧ ∀ c,
          Py.splitlines (String c a +:+ newline +:+ b)
          = Py.splitlines (String c a) ++ Py.splitlines b
          ∨ Py.splitlines (String c a +:+ newline +:+ b)
            = Py.splitlines (String c a) ++ "" :: Py.splitlines b);
    [tauto|].
  induction a as [|d a [IHa IHda]].
  - split; [right; exact Hnl|]. intros c.
    change (String c "" +:+ newline +:+ b) with (String c (newline +:+ b)).
    change (Py.splitlines (String c (newline +:+ b)))
      with (if Py.is_linebreak c
            then "" :: (if bool_decide (c = "013"%char ∧ "010"%char = "010"%char)
                        then Py.splitlines b
                        else Py.splitlines (newline +:+ b))
            else Py.cons_head c (Py.splitlines (newline +:+ b))).
    rewrite Hnl. simpl Py.splitlines.
    destruct (Py.is_linebreak c).
    + case_bool_decide; [by left|by right].
    + by left.
  - split; [apply IHda|]. intros c.
    change (String c (String d a) +:+ newline +:+ b)
      with (String c (String d (a +:+ newline +:+ b))).
    change (Py.splitlines (String c (String d (a +:+ newline +:+ b))))
      with (if Py.is_linebreak c
            then "" :: (if bool_decide (c = "013"%char ∧ d = "010"%char)
                        then Py.splitlines (a +:+ newline +:+ b)
                        else Py.splitlines (String d (a +:+ newline +:+ b)))
            else Py.cons_head c (Py.splitlines (String d (a +:+ newline +:+ b)))).
    change (Py.splitlines (String c (String d a)))
      with (if Py.is_linebreak c
            then "" :: (if bool_decide (c = "013"%char ∧ d = "010"%char)
                        then Py.splitlines a
                        else Py.splitlines (String d a))
            else Py.cons_head c (Py.splitlines (String d a))).
    change (String d (a +:+ newline +:+ b)) with (String d a +:+ newline +:+ b).
    destruct (Py.is_linebreak c).
    + case_bool_decide.
      * destruct IHa as [-> | ->]; [by left|by right].
      * destruct (IHda d) as [-> | ->]; [by left|by right].
    + destruct (IHda d) as [-> | ->]; rewrite cons_head_app by apply splitlines_nonempty;
        [by left|by right].
Qed.

Lemma blank_not_kept : ¬ kept "".
Proof. intros [H _]. done. Qed.

(** X13: Parsing is local to the lines: the records of two texts put one after
    the other, with a line feed between them, are the records of the first
    followed by the records of the second. *)
Theorem parse_file_app (content more : string) :
  AccountParser.parse_file (content +:+ newline +:+ more)
  = AccountParser.parse_file content ++ AccountParser.parse_file more.
Proof.
  unfold AccountParser.parse_file. rewrite !parse_loop. simpl.
  destruct (splitlines_newline content more) as [-> | ->].
  - by rewrite filter_app, fmap_app.
  - rewrite filter_app, filter_cons_False by apply blank_not_kept.
    by rewrite fmap_app.
Qed.

(** ** Trimming *)

Lemma rstrip_cons (d : ascii) (r : string) :
  Py.rstrip (String d r)
  = match Py.rstrip r with
    | "" => if Py.is_space d then "" else String d ""
    | r' => String d r'
    end.
Proof. done. Qed.

Lemma rstrip_cons_keep (d : ascii) (r : string) :
  Py.is_space d = false → Py.rstrip (String d r) = String d (Py.rstrip r).
Proof. intros Hd. rewrite rstrip_cons, Hd. by destruct (Py.rstrip r). Qed.

Lemma rstrip_cons_more (d : ascii) (r : string) :
  Py.rstrip r ≠ "" → Py.rstrip (String d r) = String d (Py.rstrip r).
Proof. intros Hr. rewrite rstrip_cons. by destruct (Py.rstrip r). Qed.

Lemma rstrip_cons_blank (d : ascii) (r : string) :
  Py.is_space d = true → Py.rstrip r = "" → Py.rstrip (String d r) = "".
Proof. intros Hd Hr. by rewrite rstrip_cons, Hr, Hd. Qed.

Lemma lstrip_idem (s : string) : Py.lstrip (Py.lstrip s) = Py.lstrip s.
Proof.
  induction s as [|d r IH]; [done|]. simpl.
  destruct (Py.is_space d) eqn:Hd; [done|]. simpl. by rewrite Hd.
Qed.

Lemma rstrip_idem (s : string) : Py.rstrip (Py.rstrip s) = Py.rstrip s.
Proof.
  induction s as [|d r IH]; [done|].
  destruct (Py.is_space d) eqn:Hd.
  - destruct (decide (Py.rstrip r = "")) as [Hr|Hr].
    + by rewrite rstrip_cons_blank.
    + rewrite (rstrip_cons_more d r) by done.
      rewrite rstrip_cons_more; by rewrite IH.
  - rewrite (rstrip_cons_keep d r) by done.
    rewrite rstrip_cons_keep by done. by rewrite IH.
Qed.

Lemma strip_comm (s : string) : Py.rstrip (Py.lstrip s) = Py.lstrip (Py.rstrip s).
Proof.
  induction s as [|d r IH]; [done|].
  destruct (Py.is_space d) eqn:Hd.
  - simpl Py.lstrip at 1. rewrite Hd, IH.
    destruct (decide (Py.rstrip r = "")) as [Hr|Hr].
    + by rewrite rstrip_cons_blank, Hr.
    + rewrite rstrip_cons_more by done. simpl. by rewrite Hd.
  - rewrite rstrip_cons_keep by done. simpl. rewrite Hd.
    by rewrite rstrip_cons_keep.
Qed.

Lemma strip_rstrip (s : string) : Py.strip (Py.rstrip s) = Py.strip s.
Proof. unfold Py.strip. by rewrite !strip_comm, rstrip_idem. Qed.

Lemma strip_lstrip (s : string) : Py.strip (Py.lstrip s) = Py.strip s.
Proof. unfold Py.strip. by rewrite lstrip_idem. Qed.

Lemma strip_idem (s : string) : Py.strip (Py.strip s) = Py.strip s.
Proof. unfold Py.strip at 2. by rewrite strip_rstrip, strip_lstrip. Qed.

Lemma contains_lstrip_eq (c : ascii) (s : string) :
  Py.is_space c = false → Py.contains c (Py.lstrip s) = Py.contains c s.
Proof.
  intros Hc. induction s as [|d r IH]; [done|]. simpl.
  destruct (Py.is_space d) eqn:Hd; [|done].
  rewrite IH. rewrite bool_decide_eq_false_2; [done|]. congruence.
Qed.

Lemma contains_rstrip_eq (c : ascii) (s : string) :
  Py.is_space c = false → Py.contains c (Py.rstrip s) = Py.contains c s.
Proof.
  intros Hc. induction s as [|d r IH]; [done|].
  destruct (Py.is_space d) eqn:Hd.
  - destruct (decide (Py.rstrip r = "")) as [Hr|Hr].
    + rewrite rstrip_cons_blank by done. rewrite Hr in IH. simpl. rewrite <- IH.
      rewrite bool_decide_eq_false_2; [done|]. congruence.
    + rewrite rstrip_cons_more by done. simpl. by rewrite IH.
  - rewrite rstrip_cons_keep by done. simpl. by rewrite IH.
Qed.

Lemma contains_strip_eq (c : ascii) (s : string) :
  Py.is_space c = false → Py.contains c (Py.strip s) = Py.contains c s.
Proof.
  intros Hc. unfold Py.strip. by rewrite contains_rstrip_eq, contains_lstrip_eq.
Qed.

Lemma lstrip_before (c : ascii) (s : string) :
  Py.is_space c = false →
  Py.lstrip (before c (Py.lstrip s)) = Py.lstrip (before c s).
Proof.
  intros Hc. induction s as [|d r IH]; [done|]. simpl.
  destruct (Py.is_space d) eqn:Hd; [|done].
  rewrite bool_decide_eq_false_2 by congruence. simpl. by rewrite Hd.
Qed.

Lemma rstrip_before (c : ascii) (s : string) :
  Py.is_space c = false →
  Py.rstrip (before c (Py.rstrip s)) = Py.rstrip (before c s).
Proof.
  intros Hc. induction s as [|d r IH]; [done|].
  destruct (decide (d = c)) as [->|Hdc].
  - rewrite rstrip_cons_keep by done. simpl. by rewrite bool_decide_eq_true_2.
  - assert (∀ x, before c (String d x) = String d (before c x)) as Hbefore
      by (intros x; simpl; by rewrite bool_decide_eq_false_2).
    rewrite Hbefore.
    destruct (decide (Py.rstrip r = "")) as [Hr|Hr].
    + rewrite Hr in IH. change (Py.rstrip (before c "")) with "" in IH.
      destruct (Py.is_space d) eqn:Hd.
      * rewrite (rstrip_cons_blank d r) by done.
        by rewrite (rstrip_cons_blank d (before c r)).
      * rewrite (rstrip_cons_keep d r), Hr by done.
        rewrite Hbefore. by rewrite !rstrip_cons_keep, <- IH by done.
    + rewrite (rstrip_cons_more d r) by done.
      rewrite Hbefore. by rewrite !rstrip_cons, IH.
Qed.

Lemma strip_before (c : ascii) (s : string) :
  Py.is_space c = false →
  Py.strip (before c (Py.strip s)) = Py.strip (before c s).
Proof.
  intros Hc. unfold Py.strip.
  rewrite (strip_comm (before c _)), rstrip_before by done.
  rewrite <- strip_comm, lstrip_before by done. done.
Qed.

Lemma after_lstrip (c : ascii) (s : string) :
  Py.is_space c = false → after c (Py.lstrip s) = after c s.
Proof.
  intros Hc. induction s as [|d r IH]; [done|]. simpl.
  destruct (Py.is_space d) eqn:Hd; [|done].
  rewrite bool_decide_eq_false_2 by congruence. done.
Qed.

Lemma after_rstrip (c : ascii) (s : string) :
  Py.is_space c = false → Py.contains c s →
  after c (Py.rstrip s) = Py.rstrip (after c s).
Proof.
  intros Hc. induction s as [|d r IH]; [done|]. simpl Py.contains.
  destruct (decide (d = c)) as [->|Hdc].
  - intros _. rewrite rstrip_cons_keep by done. simpl.
    by rewrite bool_decide_eq_true_2.
  - rewrite bool_decide_eq_false_2 by done. intros Hr. simpl in Hr.
    rewrite rstrip_cons_more.
    + simpl after. rewrite bool_decide_eq_false_2 by done. by apply IH.
    + intros Hnil. rewrite <- (contains_rstrip_eq c r Hc), Hnil in Hr. done.
Qed.

(** ** Reading an export back *)

Lemma add_detail_rstrip (attributes : gmap string string) (seg : string) :
  add_detail attributes (Py.rstrip seg) = add_detail attributes seg.
Proof.
  unfold add_detail. rewrite contains_rstrip_eq by done.
  destruct (Py.contains "=" seg) eqn:Heq; [|done].
  rewrite after_rstrip by (done || by rewrite Heq).
  rewrite strip_rstrip.
  assert (Py.strip (before "=" (Py.rstrip seg)) = Py.strip (before "=" seg)) as ->.
  { unfold Py.strip. rewrite !(strip_comm (before _ _)).
    by rewrite rstrip_before. }
  done.
Qed.

Lemma add_detail_same_rstrip (attributes : gmap string string) (s1 s2 : string) :
  Py.rstrip s1 = Py.rstrip s2 → add_detail attributes s1 = add_detail attributes s2.
Proof.
  intros H. by rewrite <- (add_detail_rstrip _ s1), H, add_detail_rstrip.
Qed.

Lemma split_no_occurrence (c : ascii) (s : string) :
  Py.contains c s = false → Py.split c None s = [s].
Proof.
  induction s as [|d r IH]; [done|]. simpl.
  case_bool_decide; simpl; [done|]. intros Hr. by rewrite IH.
Qed.

Lemma split_cons_other (c d : ascii) (s : string) :
  d ≠ c → Py.split c None (String d s) = Py.cons_head d (Py.split c None s).
Proof. intros Hd. simpl. by rewrite bool_decide_eq_false_2. Qed.

Lemma split_cons_sep (c : ascii) (s : string) :
  Py.split c None (String c s) = "" :: Py.split c None s.
Proof. simpl. by rewrite bool_decide_eq_true_2. Qed.

(** The segments of a text trimmed at the right are those of the text, up to
    white space at the right of each. *)
Lemma split_rstrip (c : ascii) (s : string) :
  Py.is_space c = false →
  Forall2 (λ s1 s2, Py.rstrip s1 = Py.rstrip s2)
    (Py.split c None (Py.rstrip s)) (Py.split c None s).
Proof.
  intros Hc. induction s as [|d r IH].
  - by repeat constructor.
  - destruct (decide (d = c)) as [->|Hdc].
    + rewrite rstrip_cons_keep, !split_cons_sep by done. by constructor.
    + rewrite (split_cons_other c d r) by done.
      destruct (decide (Py.rstrip r = "")) as [Hr|Hr].
      * assert (Py.contains c r = false) as Hno.
        { rewrite <- (contains_rstrip_eq c r Hc), Hr. done. }
        rewrite (split_no_occurrence c r Hno). simpl Py.cons_head.
        destruct (Py.is_space d) eqn:Hd.
        -- rewrite rstrip_cons_blank by done. simpl Py.split.
           constructor; [|constructor]. by rewrite rstrip_cons_blank.
        -- rewrite (rstrip_cons_keep d r), Hr by done.
           rewrite split_cons_other by done. simpl.
           constructor; [|constructor].
           by rewrite !rstrip_cons_keep, Hr.
      * rewrite rstrip_cons_more, split_cons_other by done.
        destruct IH as [|h1 h2 t1 t2 Hh Ht]; simpl.
        -- by repeat constructor.
        -- constructor; [|done]. by rewrite !rstrip_cons, Hh.
Qed.

Lemma fold_add_detail_rstrip (l1 l2 : list string) (attributes : gmap string string) :
  Forall2 (λ s1 s2, Py.rstrip s1 = Py.rstrip s2) l1 l2 →
  fold_left add_detail l1 attributes = fold_left add_detail l2 attributes.
Proof.
  intros H. revert attributes. induction H as [|s1 s2 l1 l2 Hs Hl IH]; intros attributes.
  - done.
  - simpl. rewrite (add_detail_same_rstrip _ s1 s2 Hs). apply IH.
Qed.

Lemma credentials_strip (line : string) :
  credentials (Py.strip line) = credentials line.
Proof. unfold credentials. by apply strip_before. Qed.

Lemma attributes_of_strip (line : string) :
  attributes_of (Py.strip line) = attributes_of line.
Proof.
  unfold attributes_of. rewrite contains_strip_eq by done.
  destruct (Py.contains "|" line) eqn:Hp; [|done].
  unfold Py.strip. rewrite after_rstrip.
  - rewrite after_lstrip by done. apply fold_add_detail_rstrip.
    by apply split_rstrip.
  - done.
  - by rewrite contains_lstrip_eq, Hp.
Qed.

(** Trimming a line does not change its record. *)
Lemma record_of_strip (line : string) : record_of (Py.strip line) = record_of line.
Proof.
  unfold record_of. by rewrite credentials_strip, attributes_of_strip, strip_idem.
Qed.

Lemma kept_strip (line : string) : kept (Py.strip line) ↔ kept line.
Proof. unfold kept. by rewrite credentials_strip, strip_idem. Qed.

Lemma one_line_cons_head (c : ascii) (l : list string) :
  Py.is_linebreak c = false → Forall (λ s, one_line s) l →
  Forall (λ s, one_line s) (Py.cons_head c l).
Proof.
  intros Hc Hl. destruct Hl as [|h t Hh Ht]; simpl.
  - constructor; [|done]. simpl. by rewrite Hc.
  - constructor; [|done]. simpl. by rewrite Hc.
Qed.

(** No line returned by [splitlines] has a line boundary in it. *)
Lemma splitlines_lines (s : string) : Forall (λ l, one_line l) (Py.splitlines s).
Proof.
  cut (Forall (λ l, one_line l) (Py.splitlines s)
       ∧ ∀ c, Forall (λ l, one_line l) (Py.splitlines (String c s))); [tauto|].
  induction s as [|d s [IHs IHds]].
  - split; [constructor|]. intros c. simpl.
    destruct (Py.is_linebreak c) eqn:Hc; repeat constructor. simpl. by rewrite Hc.
  - split; [apply IHds|]. intros c.
    change (Py.splitlines (String c (String d s)))
      with (if Py.is_linebreak c
            then "" :: (if bool_decide (c = "013"%char ∧ d = "010"%char)
                        then Py.splitlines s
                        else Py.splitlines (String d s))
            else Py.cons_head c (Py.splitlines (String d s))).
    destruct (Py.is_linebreak c) eqn:Hc.
    + constructor; [done|]. case_bool_decide; [done|apply IHds].
    + by apply one_line_cons_head.
Qed.

Lemma one_line_lstrip (s : string) : one_line s → one_line (Py.lstrip s).
Proof.
  induction s as [|d r IH]; [done|]. simpl.
  intros [Hd Hr]%andb_True. destruct (Py.is_space d); [by apply IH|].
  simpl. by apply andb_True.
Qed.

Lemma one_line_rstrip (s : string) : one_line s → one_line (Py.rstrip s).
Proof.
  induction s as [|d r IH]; [done|].
  intros H. simpl in H. apply andb_True in H as [Hd Hr].
  rewrite rstrip_cons. specialize (IH Hr).
  destruct (Py.rstrip r) as [|e r'].
  - destruct (Py.is_space d); [done|]. simpl. by rewrite andb_True.
  - change (one_line (String d (String e r')))
      with (negb (Py.is_linebreak d) && one_line (String e r')).
    by apply andb_True.
Qed.

Lemma one_line_strip (s : string) : one_line s → one_line (Py.strip s).
Proof. intros H. by apply one_line_rstrip, one_line_lstrip. Qed.

Lemma splitlines_first_line (x rest : string) :
  one_line x → x ≠ "" →
  Py.splitlines (x +:+ newline +:+ rest) = x :: Py.splitlines rest.
Proof.
  induction x as [|c r IH]; [done|]. intros [Hc Hr]%andb_True _.
  apply negb_True, Is_true_false_1 in Hc.
  change (String c r +:+ newline +:+ rest) with (String c (r +:+ newline +:+ rest)).
  destruct r as [|d r'].
  - change ("" +:+ newline +:+ rest) with (String "010" rest).
    change (Py.splitlines (String c (String "010" rest)))
      with (if Py.is_linebreak c
            then "" :: (if bool_decide (c = "013"%char ∧ "010"%char = "010"%char)
                        then Py.splitlines rest
                        else Py.splitlines (String "010" rest))
            else Py.cons_head c (Py.splitlines (String "010" rest))).
    rewrite Hc. simpl. by destruct rest.
  - change (String d r' +:+ newline +:+ rest) with (String d (r' +:+ newline +:+ rest)).
    change (Py.splitlines (String c (String d (r' +:+ newline +:+ rest))))
      with (if Py.is_linebreak c
            then "" :: (if bool_decide (c = "013"%char ∧ d = "010"%char)
                        then Py.splitlines (r' +:+ newline +:+ rest)
                        else Py.splitlines (String d (r' +:+ newline +:+ rest)))
            else Py.cons_head c (Py.splitlines (String d (r' +:+ newline +:+ rest)))).
    rewrite Hc.
    change (String d (r' +:+ newline +:+ rest)) with (String d r' +:+ newline +:+ rest).
    by rewrite IH.
Qed.

(** The lines of a text made of non-empty single lines joined by line feeds
    are those lines. *)
Lemma splitlines_join (lines : list string) :
  Forall (λ l, one_line l ∧ l ≠ "") lines →
  Py.splitlines (Py.join newline lines) = lines.
Proof.
  induction 1 as [|x l [Hx Hne] Hl IH]; [done|].
  destruct l as [|y l].
  - by apply splitlines_one_line.
  - change (Py.join newline (x :: y :: l))
      with (x +:+ newline +:+ Py.join newline (y :: l)).
    by rewrite splitlines_first_line, IH.
Qed.

Lemma parse_file_lines (content : string) :
  AccountParser.parse_file content
  = record_of <$> filter kept (Py.splitlines content).
Proof. unfold AccountParser.parse_file. by rewrite parse_loop. Qed.

(** X14: The text export of a parsed upload, given back to the parser, yields
    the same records: exporting and importing again loses nothing. *)
Theorem text_export_reimport (timestamp content : string) :
  ∃ text name,
    format_filtered_accounts timestamp (AccountParser.parse_file content) "text"
    = Ok (text, name)
    ∧ AccountParser.parse_file text = AccountParser.parse_file content.
Proof.
  exists (Py.join newline (raw <$> AccountParser.parse_file content)),
         ("netflix_accounts_" +:+ timestamp +:+ ".txt").
  split; [done|].
  rewrite (parse_file_lines content).
  set (lines := filter kept (Py.splitlines content)).
  assert (Forall (λ l, one_line l ∧ kept l) lines) as Hlines.
  { apply Forall_forall. intros l [Hk Hl]%list_elem_of_filter. split; [|done].
    pose proof (splitlines_lines content) as Hall.
    rewrite Forall_forall in Hall. by apply Hall. }
  assert (raw <$> (record_of <$> lines) = Py.strip <$> lines) as ->
    by by rewrite <- list_fmap_compose.
  rewrite parse_file_lines, splitlines_join.
  - assert (filter kept (Py.strip <$> lines) = Py.strip <$> lines) as ->.
    { clear -Hlines. induction Hlines as [|l ls [_ Hk] _ IH]; [done|].
      rewrite fmap_cons, filter_cons_True, IH; [done|]. by apply kept_strip. }
    rewrite <- list_fmap_compose. apply list_fmap_ext. intros _ l _. simpl.
    apply record_of_strip.
  - apply Forall_fmap. eapply Forall_impl; [exact Hlines|].
    intros l [Hone [Hne _]]. simpl. split; [by apply one_line_strip|exact Hne].
Qed.

(** ** The option keyboards *)

Lemma foldO_collect {A B : Type} (step : list B → A → outcome (list B))
    (g : A → B) (l : list A) (init : list B) :
  (∀ out x, x ∈ l → step out x = Done (out ++ [g x])) →
  foldO step init l = Done (init ++ (g <$> l)).
Proof.
  revert init. induction l as [|x l IH]; intros init Hstep; simpl.
  - by rewrite app_nil_r.
  - rewrite Hstep by left. simpl. rewrite IH.
    + by rewrite <- app_assoc.
    + intros out y Hy. apply Hstep. by right.
Qed.

Lemma getitem_lookup {A : Type} (l : list A) (i : nat) (x : A) :
  l !! i = Some x → getitem l (Z.of_nat i) = Done x.
Proof.
  intros Hi. unfold getitem.
  rewrite (bool_decide_eq_false_2 (Z.of_nat i < 0)%Z) by lia. cbv zeta.
  rewrite (bool_decide_eq_false_2 (Z.of_nat i < 0)%Z) by lia.
  by rewrite Nat2Z.id, Hi.
Qed.

Lemma take_two_drop {A : Type} (l : list A) (j : nat) (x : A) :
  l !! j = Some x →
  take 2 (drop j l) = x :: match l !! S j with Some y => [y] | None => [] end.
Proof.
  intros Hj. rewrite (drop_S l x j Hj). simpl. f_equal.
  destruct (l !! S j) as [y|] eqn:Hy.
  - by rewrite (drop_S l y (S j) Hy).
  - rewrite drop_ge; [done|]. by apply lookup_ge_None.
Qed.

Lemma keyboard_row_pair (options : list string) (filter_type : string)
    (keyboard : list (list BotKeyboards.InlineKeyboardButton)) (i : nat) :
  i * 2 < length options →
  BotKeyboards.keyboard_row options filter_type keyboard (Z.of_nat i * 2)
  = Done (keyboard
          ++ [take 2 (drop (i * 2) (BotKeyboards.option_button filter_type <$> options))]).
Proof.
  intros Hi. destruct (lookup_lt_is_Some_2 options (i * 2) Hi) as [first Hfirst].
  unfold BotKeyboards.keyboard_row.
  replace (Z.of_nat i * 2)%Z with (Z.of_nat (i * 2)) by lia.
  rewrite (getitem_lookup _ _ _ Hfirst). simpl.
  rewrite (take_two_drop _ (i * 2) (BotKeyboards.option_button filter_type first))
    by by rewrite list_lookup_fmap, Hfirst.
  rewrite list_lookup_fmap. unfold len.
  destruct (options !! S (i * 2)) as [second|] eqn:Hsecond.
  - rewrite bool_decide_eq_true_2
      by (apply lookup_lt_Some in Hsecond; lia).
    replace (Z.of_nat (i * 2) + 1)%Z with (Z.of_nat (S (i * 2))) by lia.
    by rewrite (getitem_lookup _ _ _ Hsecond).
  - rewrite bool_decide_eq_false_2; [done|].
    apply lookup_ge_None in Hsecond. lia.
Qed.

(** X16: The option keyboard never raises.  It consists of the option buttons, in
    the order of the options and two to a row (the last row has one button
    when the number of options is odd), followed by a row with the back
    button alone. *)
Theorem dynamic_filter_keyboard_layout (back_text : string) (options : list string)
    (filter_type : string) :
  ∃ rows,
    BotKeyboards.dynamic_filter_keyboard back_text options filter_type
    = Done (rows ++ [[back_button back_text]])
    ∧ concat rows = BotKeyboards.option_button filter_type <$> options
    ∧ length rows = (length options + 1) `div` 2
    ∧ ∀ i, i < length rows →
        rows !! i
        = Some (take 2 (drop (i * 2)
                          (BotKeyboards.option_button filter_type <$> options))).
Proof.
  set (buttons := BotKeyboards.option_button filter_type <$> options).
  set (k := parts (len options) 2).
  exists ((λ i, take 2 (drop (i * 2) buttons)) <$> seq 0 k).
  assert (k = (length options + 1) `div` 2) as Hk.
  { unfold k, parts, len.
    replace (Z.of_nat (length options) + 2 - 1)%Z
      with (Z.of_nat (length options + 1)) by lia.
    change 2%Z with (Z.of_nat 2). by rewrite <- Nat2Z.inj_div, Nat2Z.id. }
  assert (length options ≤ k * 2) as Hcover.
  { rewrite Hk. pose proof (Nat.div_mod (length options + 1) 2 ltac:(lia)).
    pose proof (Nat.mod_upper_bound (length options + 1) 2 ltac:(lia)). lia. }
  assert (∀ i, i < k → i * 2 < length options) as Hin.
  { intros i Hi. rewrite Hk in Hi.
    pose proof (Nat.div_mod (length options + 1) 2 ltac:(lia)).
    pose proof (Nat.mod_upper_bound (length options + 1) 2 ltac:(lia)). lia. }
  split; [|split; [|split]].
  - unfold BotKeyboards.dynamic_filter_keyboard.
    destruct (decide (options = [])) as [Hnil|Hne].
    { assert (k = 0) as Hk0 by (rewrite Hk, Hnil; done). rewrite Hk0, Hnil. done. }
    assert (0 < len options)%Z as Hn.
    { unfold len. destruct options; [done|simpl; lia]. }
    rewrite range_offsets by (done || lia). simpl.
    rewrite (foldO_collect _ (λ idx, take 2 (drop (Z.to_nat idx) buttons))).
    + simpl. rewrite <- list_fmap_compose. do 2 f_equal.
      apply list_fmap_ext. intros _ i _. simpl.
      by replace (Z.to_nat (Z.of_nat i * 2)) with (i * 2) by lia.
    + intros out idx (i & -> & Hi)%list_elem_of_fmap.
      apply list_elem_of_lookup_1 in Hi as (j & [-> Hi]%lookup_seq).
      rewrite keyboard_row_pair by (apply Hin; lia).
      by replace (Z.to_nat (Z.of_nat (0 + j) * 2)) with ((0 + j) * 2) by lia.
  - apply (concat_runs 2 k). unfold buttons. by rewrite length_fmap.
  - by rewrite length_fmap, length_seq.
  - intros i. rewrite length_fmap, length_seq. intros Hi.
    rewrite list_lookup_fmap, lookup_seq_lt by done. done.
Qed.

(** ** Callback data *)

Lemma split_nonempty (c : ascii) (s : string) : Py.split c None s ≠ [].
Proof.
  destruct s as [|d r]; [done|]. simpl.
  case_bool_decide; [done|]. by destruct (Py.split c None r).
Qed.

Lemma join_cons (sep x : string) (l : list string) :
  l ≠ [] → Py.join sep (x :: l) = x +:+ sep +:+ Py.join sep l.
Proof. by destruct l. Qed.

Lemma join_cons_head (c : ascii) (d : ascii) (l : list string) :
  l ≠ [] →
  Py.join (String c "") (Py.cons_head d l) = String d (Py.join (String c "") l).
Proof.
  intros Hl. destruct l as [|h t]; [done|]. simpl Py.cons_head.
  destruct t as [|h' t']; [done|].
  by rewrite (join_cons _ (String d h)), (join_cons _ h) by done.
Qed.

(** Splitting at a character and joining with it gives the text back. *)
Lemma join_split (c : ascii) (s : string) :
  Py.join (String c "") (Py.split c None s) = s.
Proof.
  induction s as [|d r IH]; [done|].
  destruct (decide (d = c)) as [->|Hd].
  - rewrite split_cons_sep, join_cons by apply split_nonempty.
    by rewrite IH.
  - rewrite split_cons_other, join_cons_head by (done || apply split_nonempty).
    by rewrite IH.
Qed.

Lemma split_app_sep (c : ascii) (a b : string) :
  Py.contains c a = false →
  Py.split c None (a +:+ String c b) = a :: Py.split c None b.
Proof.
  induction a as [|d r IH]; intros Ha.
  - change ("" +:+ String c b) with (String c b). by rewrite split_cons_sep.
  - simpl in Ha. apply orb_false_iff in Ha as [Hd Hr].
    apply bool_decide_eq_false in Hd.
    change (String d r +:+ String c b) with (String d (r +:+ String c b)).
    rewrite split_cons_other, IH by done. done.
Qed.

(** The callback data of an option button, unpacked as the handler does,
    gives back the filter type and the option, underscores in the option
    included, when the filter type has no underscore. *)
Theorem option_button_unpack (filter_type option : string) :
  Py.contains "_" filter_type = false →
  unpack_apply (BotKeyboards.callback_data
                  (BotKeyboards.option_button filter_type option))
  = Done (filter_type, option).
Proof.
  intros Hft. unfold unpack_apply. simpl BotKeyboards.callback_data.
  change ("apply_" +:+ filter_type +:+ "_" +:+ option)
    with ("apply" +:+ String "_" (filter_type +:+ String "_" option)).
  rewrite split_app_sep by done. rewrite split_app_sep by done.
  by rewrite join_split.
Qed.

Lemma option_button_unpack_witness :
  unpack_apply (BotKeyboards.callback_data
                  (BotKeyboards.option_button "payment" "Credit_Card"))
  = Done ("payment", "Credit_Card").
Proof. apply (option_button_unpack "payment" "Credit_Card"). reflexivity. Defined.

(** ** Escaping for the report *)

Lemma esc_head (s : string) :
  match _esc s with
  | String c _ => c ≠ "_"%char
  | "" => True
  end.
Proof.
  destruct s as [|d r]; [done|]. unfold _esc. simpl.
  case_bool_decide; [done|]. done.
Qed.

(** X18: Escaping loses nothing: dropping the backslash before each underscore
    of an escaped text gives the text back. *)
Theorem esc_unesc (s : string) : unesc (_esc s) = s.
Proof.
  induction s as [|d r IH]; [done|].
  unfold _esc in *. simpl Py.replace.
  case_bool_decide as Hd.
  - subst d. change (String "092" "_" +:+ Py.replace "_" (String "092" "_") r)
      with (String "092" (String "_" (Py.replace "_" (String "092" "_") r))).
    simpl unesc at 1. by rewrite IH.
  - pose proof (esc_head r) as Hhead. unfold _esc in Hhead.
    destruct (Py.replace "_" (String "092" "_") r) as [|e r'] eqn:Hr.
    + simpl. by rewrite <- IH.
    + change (unesc (String d (String e r')))
        with (if bool_decide (d = "092"%char ∧ e = "_"%char)
              then String e (unesc r') else String d (unesc (String e r'))).
      rewrite bool_decide_eq_false_2 by tauto. by rewrite IH.
Qed.

(** ** The handlers *)

(** The case analysis of [button_handler] along its chain of tests, on a
    hypothesis [H] that the call returned. *)
Ltac handler_cases H :=
  unfold button_handler in H;
  match type of H with
  | context [?ud !! ?u] => destruct (ud !! u) as [?s|] eqn:?Hs
  end;
  simpl in H;
  repeat (case_match; simplify_eq/=);
  try match type of H with
      | context [unpack_apply ?d] =>
          destruct (unpack_apply d) as [[?ft ?v]|] eqn:?Hunpack
      end;
  try match type of H with
      | context [getitem ?l ?i] => destruct (getitem l i) as [?tok|] eqn:?Htok
      end;
  simplify_eq/=;
  repeat (case_match; simplify_eq/=);
  repeat match type of H with
         | context [lift ?r] => destruct r eqn:?; simplify_eq/=
         end.

(** What a press of a button does to the sessions: nothing, or the record
    of a filter that selected something, or the record of a format. *)
Lemma button_handler_sessions (int_ : string → result Z) (timestamp : string)
    (user_data : gmap Z session) (user_id chat : Z) (data : string)
    (user_data' : gmap Z session) (events : list event) :
  button_handler int_ timestamp user_data user_id chat data
  = Done (user_data', events) →
  user_data' = user_data
  ∨ ∃ s, user_data !! user_id = Some s
      ∧ ((∃ filter_type value,
            filter_accounts (session_accounts s) filter_type value ≠ []
            ∧ user_data'
              = <[user_id := with_filter s
                    (filter_accounts (session_accounts s) filter_type value)
                    (label_of filter_type value)]> user_data)
         ∨ ∃ fmt, user_data' = <[user_id := with_format s fmt]> user_data).
Proof.
  intros H. handler_cases H.
  all: try (by left).
  - right. exists s. split; [done|]. left. exists ft, v.
    match goal with Hf : filter_accounts _ _ _ = _ |- _ => rewrite Hf end.
    done.
  - right. exists s. split; [done|]. right. by eexists.
Qed.














(** X20: An update of one user leaves the sessions of all other users as they
    were. *)
Theorem sessions_isolated (int_ : string → result Z) (user_data : gmap Z session)
    (upd : update) (other : Z) :
  other ≠ update_user upd →
  step int_ user_data upd !! other = user_data !! other.
Proof.
  intros Hother. destruct upd as [user content|user chat timestamp data]; simpl in *.
  - unfold handle_document. destruct (AccountParser.parse_file content); [done|].
    simpl. by rewrite lookup_insert_ne.
  - destruct (button_handler int_ timestamp user_data user chat data)
      as [[user_data' events]|] eqn:Hcall; [|done].
    apply button_handler_sessions in Hcall
      as [->|(s & Hs & [(ft & v & Hne & ->)|(fmt & ->)])]; [done| |];
      by rewrite lookup_insert_ne.
Qed.

Lemma sessions_isolated_witness :
  step (λ _, Raise ValueError) (run (λ _, Raise ValueError) [Upload 7 "a@x.com:pw"])
    (Upload 8 "b@x.com:pw") !! 7%Z
  = run (λ _, Raise ValueError) [Upload 7 "a@x.com:pw"] !! 7%Z.
Proof.
  apply (sessions_isolated (λ _, Raise ValueError)
           (run (λ _, Raise ValueError) [Upload 7 "a@x.com:pw"])
           (Upload 8 "b@x.com:pw") 7).
  discriminate.
Defined.

(** X21: Documents are sent only by the press of a batch button, and only once a
    filter result and a format are stored for the user: the calls are those
    [send_export_files] makes on the stored filter result with the stored
    format and label, between the answer to the press and the closing
    message, and the sessions are left as they were. *)
Theorem documents_from_session (int_ : string → result Z) (timestamp : string)
    (user_data : gmap Z session) (user_id chat : Z) (data : string)
    (user_data' : gmap Z session) (events : list event) (call : send_document) :
  button_handler int_ timestamp user_data user_id chat data
  = Done (user_data', events) →
  Document call ∈ events →
  startswith "batch_" data
  ∧ user_data' = user_data
  ∧ ∃ s filtered fmt batch_size sent,
      user_data !! user_id = Some s
      ∧ session_filtered s = Some filtered
      ∧ session_export_format s = Some fmt
      ∧ send_export_files timestamp chat filtered fmt batch_size
          (default "filtered" (session_filter_label s)) = Ok sent
      ∧ events = [Answer] ++ (Document <$> sent) ++ [Edit ExportComplete].
Proof.
  intros H Hin. handler_cases H.
  all: try (repeat (apply elem_of_cons in Hin as [Hin|Hin]; [discriminate Hin|]);
            by apply elem_of_nil in Hin).
  all: split; [done|]; split; [done|]; by eexists _, _, _, _, _.
Qed.

Lemma documents_from_session_witness :
  startswith "batch_" "batch_2"
  ∧ ({[ 7%Z := with_format (with_filter (fresh_session (numbered 3)) (numbered 3) "all")
                 "text" ]} : gmap Z session)
    = {[ 7%Z := with_format (with_filter (fresh_session (numbered 3)) (numbered 3) "all")
                  "text" ]}
  ∧ ∃ s filtered fmt batch_size sent,
      ({[ 7%Z := with_format (with_filter (fresh_session (numbered 3)) (numbered 3)
                                "all") "text" ]} : gmap Z session) !! 7%Z = Some s
      ∧ session_filtered s = Some filtered
      ∧ session_export_format s = Some fmt
      ∧ send_export_files "T" 1 filtered fmt batch_size
          (default "filtered" (session_filter_label s)) = Ok sent
      ∧ [Answer]
        ++ (Document <$> calls (send_export_files "T" 1 (numbered 3) "text" 2 "all"))
        ++ [Edit ExportComplete]
        = [Answer] ++ (Document <$> sent) ++ [Edit ExportComplete].
Proof.
  apply (documents_from_session (λ _, Ok 2%Z) "T" _ 7 1 "batch_2" _ _
           (sent_file 1 "text" (part_name "all" 2 "T" "text" 0)
              (chunk (numbered 3) 2 0))).
  - vm_compute. reflexivity.
  - right. left.
Defined.

Lemma parse_file_empty (content : string) :
  AccountParser.parse_file content = []
  ↔ ∀ line, line ∈ Py.splitlines content → ¬ kept line.
Proof.
  rewrite parse_file_lines. split.
  - intros Hnil%fmap_nil_inv line Hline Hkept.
    assert (line ∈ filter kept (Py.splitlines content)) as Hin
      by by apply list_elem_of_filter.
    rewrite Hnil in Hin. by apply elem_of_nil in Hin.
  - intros Hnone. rewrite filter_never; [done|]. exact Hnone.
Qed.

(** X22: An upload without a line that gives a record (every line is blank or
    has no colon in its credential part) changes no session, not even an
    earlier one of the same user, and is answered by the message that no
    valid account was found.  An upload with such a line replaces the
    session of the user by a new one, without filter result, label or
    format, whose statistics are those of the parsed accounts. *)
Theorem handle_document_effect (user_data : gmap Z session) (user_id : Z)
    (content : string) :
  ((∀ line, line ∈ Py.splitlines content → ¬ kept line) →
     handle_document user_data user_id content
     = (user_data, [Reply NoValidAccounts]))
  ∧ ((∃ line, line ∈ Py.splitlines content ∧ kept line) →
     handle_document user_data user_id content
     = (<[user_id := fresh_session (AccountParser.parse_file content)]> user_data,
        [Reply (StatsReport (generate_stats (AccountParser.parse_file content)))])).
Proof.
  unfold handle_document. split.
  - intros Hnone. by rewrite (proj2 (parse_file_empty content) Hnone).
  - intros (line & Hline & Hkept).
    destruct (AccountParser.parse_file content) as [|a l] eqn:Hparse; [|done].
    destruct (proj1 (parse_file_empty content) Hparse line Hline Hkept).
Qed.

Lemma handle_document_effect_witness :
  handle_document {[ 7%Z := fresh_session (numbered 3) ]} 7 "no record here"
  = ({[ 7%Z := fresh_session (numbered 3) ]}, [Reply NoValidAccounts]).
Proof.
  apply (handle_document_effect {[ 7%Z := fresh_session (numbered 3) ]} 7
           "no record here").
  intros line Hline. vm_compute in Hline.
  apply elem_of_cons in Hline as [->|Hline]; [|by apply elem_of_nil in Hline].
  intros [_ Hcolon]. vm_compute in Hcolon. exact Hcolon.
Defined.

Lemma prefix_nil (s : string) : String.prefix "" s = true.
Proof. by destruct s. Qed.

(** X17: Pressing an option button of a filter keyboard filters the accounts of
    the user by the filter type and the option of the button (for a filter
    type without underscore, as the five kinds are): when nothing is
    selected the sessions stay as they were, otherwise the result and its
    label are stored in the session of the user. *)
Theorem press_option_button (int_ : string → result Z) (timestamp : string)
    (user_data : gmap Z session) (user_id chat : Z) (s : session)
    (filter_type option : string) :
  user_data !! user_id = Some s →
  Py.contains "_" filter_type = false →
  button_handler int_ timestamp user_data user_id chat
    (BotKeyboards.callback_data (BotKeyboards.option_button filter_type option))
  = Done (match filter_accounts (session_accounts s) filter_type option with
          | [] => (user_data, [Answer; Edit (NoAccountsFound filter_type option)])
          | _ :: _ =>
              (<[user_id := with_filter s
                   (filter_accounts (session_accounts s) filter_type option)
                   (label_of filter_type option)]> user_data,
               [Answer;
                Edit (Found (length (filter_accounts (session_accounts s)
                                       filter_type option))
                        filter_type option)])
          end).
Proof.
  intros Hs Hft. unfold button_handler, startswith. rewrite Hs.
  rewrite option_button_unpack by done.
  simpl BotKeyboards.callback_data.
  change ("apply_" +:+ filter_type +:+ "_" +:+ option)
    with (String "a" ("pply_" +:+ filter_type +:+ "_" +:+ option)).
  rewrite (bool_decide_eq_false_2 (Some s = None)) by done.
  simpl. rewrite prefix_nil.
  by destruct (filter_accounts (session_accounts s) filter_type option).
Qed.

Lemma press_option_button_witness :
  ∃ user_data' events,
    button_handler (λ _, Raise ValueError) "T"
      {[ 7%Z := fresh_session verified_active ]} 7 7
      (BotKeyboards.callback_data (BotKeyboards.option_button "phone" "Verified"))
    = Done (user_data', events)
    ∧ session_filtered <$> user_data' !! 7%Z = Some (Some verified_active).
Proof.
  eexists _, _. split.
  - apply (press_option_button (λ _, Raise ValueError) "T"
             {[ 7%Z := fresh_session verified_active ]} 7 7
             (fresh_session verified_active) "phone" "Verified");
      reflexivity.
  - vm_compute. reflexivity.
Defined.

(** ** The csv export, continued *)

Lemma string_app_nil (s : string) : s +:+ "" = s.
Proof.
  induction s as [|c r IH]; [done|].
  change (String c r +:+ "") with (String c (r +:+ "")). by rewrite IH.
Qed.

Lemma string_app_cons (c : ascii) (r s : string) :
  String c r +:+ s = String c (r +:+ s).
Proof. done. Qed.

Lemma string_app_nil_l (s : string) : "" +:+ s = s.
Proof. done. Qed.

(** Cells form a prefix code: a cell followed by a text that does not start
    with a double quote can be read in one way only. *)
Lemma double_quotes_prefix_free (x y r1 r2 : string) :
  starts_with_quote r1 = false → starts_with_quote r2 = false →
  double_quotes x +:+ String "034" r1 = double_quotes y +:+ String "034" r2 →
  x = y ∧ r1 = r2.
Proof.
  intros H1 H2. revert y. induction x as [|c x IH]; intros y.
  - destruct y as [|d y]; simpl double_quotes.
    + rewrite !string_app_nil_l. by intros [= ->].
    + case_bool_decide as Hd; rewrite !string_app_cons, !string_app_nil_l.
      * intros [= Hr]. rewrite Hr in H1. done.
      * intros [= Hq]. done.
  - destruct y as [|d y]; simpl double_quotes.
    + case_bool_decide as Hc; rewrite !string_app_cons, !string_app_nil_l.
      * intros [= Hr]. rewrite <- Hr in H2. done.
      * intros [= Hq]. done.
    + case_bool_decide as Hc; case_bool_decide as Hd; rewrite !string_app_cons.
      * intros [= Heq]. subst c d. by destruct (IH y Heq) as [-> ->].
      * intros [= Hq]. done.
      * intros [= Hq]. done.
      * intros [= -> Heq]. by destruct (IH y Heq) as [-> ->].
Qed.

Lemma csv_cell_prefix_free (x y r1 r2 : string) :
  starts_with_quote r1 = false → starts_with_quote r2 = false →
  csv_cell x +:+ r1 = csv_cell y +:+ r2 → x = y ∧ r1 = r2.
Proof.
  intros H1 H2. unfold csv_cell, quote.
  rewrite !string_app_assoc, !string_app_cons, !string_app_nil_l.
  intros [= Heq]. by apply double_quotes_prefix_free in Heq.
Qed.

Lemma row_prefix_free (xs ys : list string) (r1 r2 : string) :
  xs ≠ [] → length xs = length ys →
  starts_with_quote r1 = false → starts_with_quote r2 = false →
  Py.join "," (csv_cell <$> xs) +:+ r1 = Py.join "," (csv_cell <$> ys) +:+ r2 →
  xs = ys ∧ r1 = r2.
Proof.
  intros Hne Hlen H1 H2. revert ys Hlen.
  induction xs as [|x xs IH]; [done|]. intros [|y ys] Hlen; [done|].
  destruct xs as [|x' xs]; destruct ys as [|y' ys]; try done.
  - simpl. intros Heq. by apply csv_cell_prefix_free in Heq as [-> ->].
  - rewrite !(fmap_cons _ x), !(fmap_cons _ y).
    rewrite (join_cons _ (csv_cell x)), (join_cons _ (csv_cell y)) by done.
    rewrite !string_app_assoc. intros Heq.
    apply csv_cell_prefix_free in Heq as [-> Heq]; [|done..].
    apply (inj (String.app ",")) in Heq.
    destruct (IH ltac:(done) (y' :: ys) ltac:(simpl in *; lia) Heq) as [Hxs ->].
    by rewrite Hxs.
Qed.

Lemma csv_row_cells (acc : account) : csv_row acc = Py.join "," (csv_cell <$> cells acc).
Proof. done. Qed.

Lemma rows_prefix_free (l1 l2 : list account) :
  l1 ≠ [] → l2 ≠ [] →
  Py.join newline (csv_row <$> l1) = Py.join newline (csv_row <$> l2) →
  cells <$> l1 = cells <$> l2.
Proof.
  revert l2. induction l1 as [|a l1 IH]; [by intros l2 []|].
  intros l2 _ Hl2. destruct l2 as [|b l2]; [done|]. clear Hl2.
  destruct l1 as [|a' l1]; destruct l2 as [|b' l2].
  - simpl. rewrite !csv_row_cells. intros Heq.
    rewrite <- (string_app_nil (Py.join "," (csv_cell <$> cells a))) in Heq.
    rewrite <- (string_app_nil (Py.join "," (csv_cell <$> cells b))) in Heq.
    apply row_prefix_free in Heq as [-> _]; done.
  - rewrite (fmap_cons _ b), (join_cons _ (csv_row b)) by done. simpl Py.join at 1.
    rewrite !csv_row_cells. intros Heq.
    rewrite <- (string_app_nil (Py.join "," (csv_cell <$> cells a))) in Heq.
    apply row_prefix_free in Heq as [_ Heq]; done.
  - rewrite (fmap_cons _ a), (join_cons _ (csv_row a)) by done. simpl Py.join at 2.
    rewrite !csv_row_cells. intros Heq.
    rewrite <- (string_app_nil (Py.join "," (csv_cell <$> cells b))) in Heq.
    apply row_prefix_free in Heq as [_ Heq]; done.
  - rewrite (fmap_cons _ a), (fmap_cons _ b).
    rewrite (join_cons _ (csv_row a)), (join_cons _ (csv_row b)) by done.
    rewrite !csv_row_cells. intros Heq.
    apply row_prefix_free in Heq as [Hcells Heq]; [|done..].
    apply (inj (String.app newline)) in Heq.
    specialize (IH (b' :: l2) ltac:(done) ltac:(done) Heq).
    rewrite (fmap_cons cells a), (fmap_cons cells b). by rewrite Hcells, IH.
Qed.

(** X15: The csv export can be read in one way only: two collections with the
    same csv export have the same number of records and, record by record,
    the same seven values (identifier, secret and the five attributes as
    shown), whatever commas, double quotes or line feeds the values hold. *)
Theorem csv_export_unambiguous (timestamp : string) (l1 l2 : list account) :
  format_filtered_accounts timestamp l1 "csv"
  = format_filtered_accounts timestamp l2 "csv" →
  cells <$> l1 = cells <$> l2.
Proof.
  rewrite !format_csv. intros Hsame.
  assert (Py.join newline (header :: (csv_row <$> l1))
          = Py.join newline (header :: (csv_row <$> l2))) as Heq by congruence.
  clear Hsame.
  destruct l1 as [|a l1]; destruct l2 as [|b l2]; [done| | |].
  - exfalso.
    change (header +:+ "" +:+ ""
            = header +:+ newline +:+ Py.join newline (csv_row <$> b :: l2)) in Heq.
    apply (inj (String.app header)) in Heq. unfold newline in Heq.
    discriminate Heq.
  - exfalso.
    change (header +:+ newline +:+ Py.join newline (csv_row <$> a :: l1)
            = header +:+ "" +:+ "") in Heq.
    apply (inj (String.app header)) in Heq. unfold newline in Heq.
    discriminate Heq.
  - change (header +:+ newline +:+ Py.join newline (csv_row <$> a :: l1)
            = header +:+ newline +:+ Py.join newline (csv_row <$> b :: l2)) in Heq.
    apply (inj (String.app header)) in Heq.
    apply (inj (String.app newline)) in Heq.
    by apply rows_prefix_free in Heq.
Qed.

Lemma csv_export_unambiguous_witness :
  cells <$> [ {| email := "a@x.com"; password := "pw"; details := ∅;
                 raw := "a@x.com:pw" |} ]
  = cells <$> [ {| email := "a@x.com"; password := "pw"; details := ∅;
                   raw := " a@x.com : pw " |} ].
Proof.
  apply (csv_export_unambiguous "T"
           [ {| email := "a@x.com"; password := "pw"; details := ∅;
                raw := "a@x.com:pw" |} ]
           [ {| email := "a@x.com"; password := "pw"; details := ∅;
                raw := " a@x.com : pw " |} ]).
  reflexivity.
Defined.

(** ** File names of the parts *)

Lemma string_length_app (s t : string) :
  String.length (s +:+ t) = String.length s + String.length t.
Proof.
  induction s as [|c r IH]; [done|].
  rewrite string_app_cons. simpl. by rewrite IH.
Qed.

Lemma string_app_inj_r (s t e : string) : s +:+ e = t +:+ e → s = t.
Proof.
  revert t. induction s as [|c s IH]; intros [|d t] Heq.
  - done.
  - apply (f_equal String.length) in Heq.
    rewrite string_app_nil_l, string_app_cons in Heq. simpl in Heq.
    rewrite string_length_app in Heq. lia.
  - apply (f_equal String.length) in Heq.
    rewrite string_app_nil_l, string_app_cons in Heq. simpl in Heq.
    rewrite string_length_app in Heq. lia.
  - rewrite !string_app_cons in Heq. injection Heq as -> Heq.
    by rewrite (IH t Heq).
Qed.

Lemma part_name_inj (label : string) (b : Z) (timestamp fmt : string) (i j : nat) :
  part_name label b timestamp fmt i = part_name label b timestamp fmt j → i = j.
Proof.
  unfold part_name. intros Heq.
  apply (inj (String.app _)) in Heq.
  apply (inj (String.app "_batch")) in Heq.
  apply string_app_inj_r in Heq.
  apply (inj pretty) in Heq. lia.
Qed.

Lemma negative_batch_nothing (timestamp : string) (chat : Z)
    (accounts : list account) (fmt : string) (b : Z) (label : string) :
  fmt = "text" ∨ fmt = "csv" →
  (b < 0)%Z →
  send_export_files timestamp chat accounts fmt b label = Ok [].
Proof.
  intros Hfmt Hb. unfold send_export_files.
  rewrite format_valid by done. simpl.
  assert (0 ≤ len accounts)%Z as Hn by (unfold len; lia).
  rewrite (bool_decide_eq_false_2 (b = 0%Z)) by lia.
  rewrite (bool_decide_eq_false_2 (len accounts ≤ b)%Z) by lia. simpl.
  unfold range. rewrite (bool_decide_eq_false_2 (b = 0%Z)) by lia.
  rewrite (bool_decide_eq_false_2 (0 < b)%Z) by lia.
  rewrite (bool_decide_eq_false_2 (len accounts < 0)%Z) by lia.
  done.
Qed.

(** X23: The parts of a batched export have file names different from one
    another: no two calls of one run of [send_export_files] carry the same
    file name. *)
Theorem part_names_distinct (timestamp : string) (chat : Z)
    (accounts : list account) (fmt : string) (b : Z) (label : string)
    (sent : list send_document) :
  send_export_files timestamp chat accounts fmt b label = Ok sent →
  NoDup (filename <$> sent).
Proof.
  intros Hsent.
  destruct (decide (fmt = "text" ∨ fmt = "csv")) as [Hfmt|Hfmt].
  - destruct (decide (0 < b < len accounts)%Z) as [Hb|Hb].
    + rewrite send_export_files_parts in Hsent by done.
      injection Hsent as <-. rewrite <- list_fmap_compose.
      apply NoDup_fmap_2; [|apply NoDup_seq].
      intros i j Heq. simpl in Heq. by apply part_name_inj in Heq.
    + destruct (decide (b < 0)%Z) as [Hneg|Hpos].
      * rewrite negative_batch_nothing in Hsent by done.
        injection Hsent as <-. constructor.
      * unfold send_export_files in Hsent.
        rewrite format_valid in Hsent by done. simpl in Hsent.
        assert (bool_decide (b = 0%Z) || bool_decide (len accounts ≤ b)%Z = true)
          as Hone.
        { destruct (decide (b = 0%Z)) as [->|Hb0]; [done|].
          rewrite (bool_decide_eq_true_2 (len accounts ≤ b)%Z) by lia.
          apply orb_true_r. }
        rewrite Hone in Hsent. injection Hsent as <-.
        apply NoDup_singleton.
  - assert (fmt ≠ "text" ∧ fmt ≠ "csv") as [Htext Hcsv] by tauto.
    unfold send_export_files, format_filtered_accounts in Hsent.
    rewrite (bool_decide_eq_false_2 (fmt = "text")) in Hsent by done.
    rewrite (bool_decide_eq_false_2 (fmt = "csv")) in Hsent by done.
    done.
Qed.

Lemma part_names_distinct_witness :
  NoDup (filename <$> calls (send_export_files "T" 1 (numbered 5) "csv" 2 "all")).
Proof.
  apply (part_names_distinct "T" 1 (numbered 5) "csv" 2 "all"). reflexivity.
Defined.
